(** * Soft-delete middleware for a Prisma client: request rewriting

    A shallow embedding of the two variants of [applyMiddleware] found in the
    repository:

    - [src/middleware.ts]: lookups filtered on [deletedAt == null], updates
      stamped with [updatedAt], deletes turned into updates setting
      [deletedAt];
    - [src/unnamed/part_000]: a skip list of model names, lookups filtered on
      [isDeleted == false], deletes turned into updates setting [isDeleted]
      and [deletedAt], and a third interceptor that filters included
      relations.

    Every interceptor registered with [prisma.$use] receives the mutable
    [params] object and hands it to [next].  An interceptor is modelled as a
    function from the descriptor it receives to the descriptor it passes to
    [next], or to [TypeError] when the JavaScript code throws before reaching
    [next].  Both files are ES modules, hence strict-mode code: assigning a
    property on a primitive throws. *)

From Stdlib Require Import List String Ascii ZArith Bool Lia DecimalString.
Import ListNotations.
Open Scope string_scope.
Open Scope list_scope.
Set Warnings "-register-all".

(** ** JavaScript values *)

(** Objects carry their own enumerable string-keyed properties in enumeration
    order.  A [Date] is an object with an internal time value and (normally)
    no own enumerable property.  Property names are taken to be field names
    (not canonical array indices, for which the engine enumerates in numeric
    order), objects are plain data (no accessors, not frozen), and the
    argument bag is a tree: no object is reachable along two paths.  Numbers
    are observed only through their truthiness and are kept as integers. *)
Inductive objclass : Type :=
| Plain
| DateObj (t : Z).

Inductive value : Type :=
| VUndefined
| VNull
| VBool (b : bool)
| VNum (n : Z)
| VStr (s : string)
| VObj (c : objclass) (props : list (string * value)).

Definition props : Type := list (string * value).

Inductive jstype : Type := TUndefined | TObject | TBoolean | TNumber | TString.

(** [typeof v]; note that [typeof null] is ["object"]. *)
Definition typeof (v : value) : jstype :=
  match v with
  | VUndefined => TUndefined
  | VNull => TObject
  | VBool _ => TBoolean
  | VNum _ => TNumber
  | VStr _ => TString
  | VObj _ _ => TObject
  end.

Definition jstype_eqb (a b : jstype) : bool :=
  match a, b with
  | TUndefined, TUndefined | TObject, TObject | TBoolean, TBoolean
  | TNumber, TNumber | TString, TString => true
  | _, _ => false
  end.

(** ToBoolean. *)
Definition truthy (v : value) : bool :=
  match v with
  | VUndefined | VNull => false
  | VBool b => b
  | VNum n => negb (Z.eqb n 0)
  | VStr s => negb (String.eqb s "")
  | VObj _ _ => true
  end.

(** [v === undefined] and [v == undefined]. *)
Definition is_undefined (v : value) : bool :=
  match v with VUndefined => true | _ => false end.

Definition is_nullish (v : value) : bool :=
  match v with VUndefined | VNull => true | _ => false end.

(** ** Property lists *)

Section Assoc.
Context {A : Type}.

Fixpoint lookup (k : string) (ps : list (string * A)) : option A :=
  match ps with
  | [] => None
  | (k', v) :: ps' => if String.eqb k k' then Some v else lookup k ps'
  end.

(** [o[k] = v] on the property list of [o]: an existing key keeps its
    place, a new key goes last. *)
Fixpoint set_key (k : string) (v : A) (ps : list (string * A))
  : list (string * A) :=
  match ps with
  | [] => [(k, v)]
  | (k', v') :: ps' =>
      if String.eqb k k' then (k, v) :: ps' else (k', v') :: set_key k v ps'
  end.

Definition has_key (k : string) (ps : list (string * A)) : bool :=
  match lookup k ps with Some _ => true | None => false end.

Definition keys (ps : list (string * A)) : list string := map fst ps.
End Assoc.

(** ** Outcomes *)

Inductive result (A : Type) : Type :=
| Ok (a : A)
| TypeError.
Arguments Ok {A} a.
Arguments TypeError {A}.

Definition bind {A B : Type} (r : result A) (k : A -> result B) : result B :=
  match r with
  | Ok a => k a
  | TypeError => TypeError
  end.

Notation "x <- e ;; k" := (bind e (fun x => k))
  (at level 61, e at next level, right associativity).

(** [for (const x of xs) body], threading the mutated state. *)
Fixpoint for_of {A S : Type} (body : S -> A -> result S) (xs : list A) (s : S)
  : result S :=
  match xs with
  | [] => Ok s
  | x :: xs' => s' <- body s x ;; for_of body xs' s'
  end.

(** ** Property access *)

Definition index_key (i : nat) : string :=
  NilZero.string_of_uint (Nat.to_uint i).

(** The own properties of a string primitive: one character per index. *)
Fixpoint chars_from (i : nat) (s : string) : props :=
  match s with
  | EmptyString => []
  | String a s' =>
      (index_key i, VStr (String a EmptyString)) :: chars_from (S i) s'
  end.

(** Own enumerable properties after ToObject, as seen by [Object.entries],
    object spread, [for ... in] and [hasOwnProperty]. *)
Definition own_entries (v : value) : props :=
  match v with
  | VObj _ ps => ps
  | VStr s => chars_from 0 s
  | _ => []
  end.

(** [v[k]] for the names the middleware reads ([where], [data], [include],
    [isDeleted], [deletedAt] and own keys), none of which is inherited. *)
Definition get_prop (v : value) (k : string) : result value :=
  match v with
  | VUndefined | VNull => TypeError
  | _ => Ok (match lookup k (own_entries v) with
             | Some x => x
             | None => VUndefined
             end)
  end.

(** [o[k] = v] in strict mode. *)
Definition set_prop (o : value) (k : string) (v : value) : result value :=
  match o with
  | VObj c ps => Ok (VObj c (set_key k v ps))
  | _ => TypeError
  end.

(** [Object.entries(v)]. *)
Definition object_entries (v : value) : result props :=
  match v with
  | VUndefined | VNull => TypeError
  | _ => Ok (own_entries v)
  end.

(** [Object.prototype.hasOwnProperty.call(v, k)]. *)
Definition has_own_property (v : value) (k : string) : result bool :=
  match v with
  | VUndefined | VNull => TypeError
  | _ => Ok (has_key k (own_entries v))
  end.

(** [{...v}]: spreading [null] or [undefined] contributes nothing. *)
Definition spread (v : value) : props := own_entries v.

(** ** Operation descriptor *)

(** Prisma's [MiddlewareParams], restricted to the fields the middleware
    reads or writes.  [model] is [undefined] for raw queries; [args] is
    [VUndefined] when the caller passed no argument. *)
Record params : Type := mkParams {
  model : option string;
  action : string;
  args : value
}.

Definition with_action (p : params) (a : string) : params :=
  {| model := model p; action := a; args := args p |}.

Definition with_args (p : params) (a : value) : params :=
  {| model := model p; action := action p; args := a |}.

(** The loop body shared by both variants of the [findUnique] rewrite:
    anything whose [typeof] is not ["object"] is put back under its key, the
    entries of anything else are pulled out one level. *)
Definition hoist_entry (w : props) (arg : string * value) : result props :=
  if negb (jstype_eqb (typeof (snd arg)) TObject) then
    Ok (set_key (fst arg) (snd arg) w)
  else
    subargs <- object_entries (snd arg) ;;
    for_of (fun w' subarg => Ok (set_key (fst subarg) (snd subarg) w'))
           subargs w.

(** [new Date()] at clock reading [t]. *)
Definition new_Date (t : Z) : value := VObj (DateObj t) [].

(** [if (!params.args) { params.args = {} }] *)
Definition ensure_args (p : params) : params :=
  if negb (truthy (args p)) then with_args p (VObj Plain []) else p.

(** ** [src/middleware.ts] *)

Module Middleware.

(** The [findUnique] block of the first interceptor.  [params.args.where]
    is replaced by a fresh object, which the loop then fills; the fresh
    object is kept in [w] and stored once the loop is over. *)
Definition findUnique_block (p : params) : result params :=
  let p := with_action p "findFirst" in
  where_ <- get_prop (args p) "where" ;;
  a0 <- set_prop (args p) "where" (VObj Plain []) ;;
  entries <- object_entries where_ ;;
  w <- for_of hoist_entry entries [] ;;
  a1 <- set_prop a0 "where" (VObj Plain (set_key "deletedAt" VNull w)) ;;
  Ok (with_args p a1).

(** The [findMany] block.  The comparisons are the loose [!= undefined]
    and [== undefined], which [null] satisfies as well. *)
Definition findMany_block (p : params) : result params :=
  let p := ensure_args p in
  where_ <- get_prop (args p) "where" ;;
  if negb (is_nullish where_) then
    deletedAt <- get_prop where_ "deletedAt" ;;
    if is_nullish deletedAt then
      where' <- set_prop where_ "deletedAt" VNull ;;
      a <- set_prop (args p) "where" where' ;;
      Ok (with_args p a)
    else Ok p
  else
    a <- set_prop (args p) "where" (VObj Plain [("deletedAt", VNull)]) ;;
    Ok (with_args p a).

(** First interceptor: lookups. *)
Definition lookup_stage (p : params) : result params :=
  p <- (if String.eqb (action p) "findUnique"
        then findUnique_block p else Ok p) ;;
  p <- (if String.eqb (action p) "findMany"
        then findMany_block p else Ok p) ;;
  Ok p.

(** Second interceptor: updates are stamped with [updatedAt]. *)
Definition update_stage (now : Z) (p : params) : result params :=
  if String.eqb (action p) "updateMany" || String.eqb (action p) "update"
  then
    let p := ensure_args p in
    data <- get_prop (args p) "data" ;;
    a <- (if negb (truthy data)
          then set_prop (args p) "data" (VObj Plain [])
          else Ok (args p)) ;;
    data <- get_prop a "data" ;;
    data' <- set_prop data "updatedAt" (new_Date now) ;;
    a <- set_prop a "data" data' ;;
    Ok (with_args p a)
  else Ok p.

Definition delete_block (now : Z) (p : params) : result params :=
  let p := with_action p "update" in
  a <- set_prop (args p) "data"
         (VObj Plain [("deletedAt", new_Date now)]) ;;
  Ok (with_args p a).

Definition deleteMany_block (now : Z) (p : params) : result params :=
  let p := ensure_args p in
  let p := with_action p "updateMany" in
  data <- get_prop (args p) "data" ;;
  if negb (is_nullish data) then
    data' <- set_prop data "deletedAt" (new_Date now) ;;
    a <- set_prop (args p) "data" data' ;;
    Ok (with_args p a)
  else
    a <- set_prop (args p) "data"
           (VObj Plain [("deletedAt", new_Date now)]) ;;
    Ok (with_args p a).

(** Third interceptor: deletions. *)
Definition delete_stage (now : Z) (p : params) : result params :=
  p <- (if String.eqb (action p) "delete"
        then delete_block now p else Ok p) ;;
  p <- (if String.eqb (action p) "deleteMany"
        then deleteMany_block now p else Ok p) ;;
  Ok p.

(** The chain installed by [applyMiddleware]: interceptors run in the
    order of their registration; the result is what reaches the query
    engine.  [t_upd] and [t_del] are the clock readings of the second and
    third interceptor. *)
Definition applyMiddleware (t_upd t_del : Z) (p : params) : result params :=
  p <- lookup_stage p ;;
  p <- update_stage t_upd p ;;
  delete_stage t_del p.

End Middleware.

(** ** [src/unnamed/part_000] *)

Module Part000.

Definition skipList : list string :=
  ["expand"; "organization"; "parentOrganization"].

(** [skipList.findIndex(val => val === s) !== -1] *)
Definition in_skipList (s : string) : bool :=
  existsb (fun val => String.eqb val s) skipList.

(** The same test on [params.model], which may be [undefined]. *)
Definition model_skipped (m : option string) : bool :=
  match m with
  | Some s => in_skipList s
  | None => false
  end.

Definition findUnique_block (p : params) : result params :=
  let p := with_action p "findFirst" in
  where_ <- get_prop (args p) "where" ;;
  a0 <- set_prop (args p) "where" (VObj Plain []) ;;
  entries <- object_entries where_ ;;
  w <- for_of hoist_entry entries [] ;;
  a1 <- set_prop a0 "where" (VObj Plain (set_key "isDeleted" (VBool false) w)) ;;
  Ok (with_args p a1).

(** The [findMany] block; here the comparisons are strict. *)
Definition findMany_block (p : params) : result params :=
  let p := ensure_args p in
  where_ <- get_prop (args p) "where" ;;
  if negb (is_undefined where_) then
    isDeleted <- get_prop where_ "isDeleted" ;;
    if is_undefined isDeleted then
      where' <- set_prop where_ "isDeleted" (VBool false) ;;
      a <- set_prop (args p) "where" where' ;;
      Ok (with_args p a)
    else Ok p
  else
    a <- set_prop (args p) "where"
           (VObj Plain [("isDeleted", VBool false)]) ;;
    Ok (with_args p a).

(** First interceptor: lookups. *)
Definition lookup_stage (p : params) : result params :=
  if model_skipped (model p) then Ok p else
  p <- (if String.eqb (action p) "findUnique"
        then findUnique_block p else Ok p) ;;
  p <- (if String.eqb (action p) "findMany"
        then findMany_block p else Ok p) ;;
  Ok p.

Definition tombstone (now : Z) : props :=
  [("isDeleted", VBool true); ("deletedAt", new_Date now)].

Definition delete_block (now : Z) (p : params) : result params :=
  let p := with_action p "update" in
  a <- set_prop (args p) "data" (VObj Plain (tombstone now)) ;;
  Ok (with_args p a).

Definition deleteMany_block (now : Z) (p : params) : result params :=
  let p := ensure_args p in
  let p := with_action p "updateMany" in
  data <- get_prop (args p) "data" ;;
  if negb (is_nullish data) then
    data' <- set_prop data "isDeleted" (VBool true) ;;
    data' <- set_prop data' "deletedAt" (new_Date now) ;;
    a <- set_prop (args p) "data" data' ;;
    Ok (with_args p a)
  else
    a <- set_prop (args p) "data" (VObj Plain (tombstone now)) ;;
    Ok (with_args p a).

(** Second interceptor: deletions. *)
Definition delete_stage (now : Z) (p : params) : result params :=
  if model_skipped (model p) then Ok p else
  p <- (if String.eqb (action p) "delete"
        then delete_block now p else Ok p) ;;
  p <- (if String.eqb (action p) "deleteMany"
        then deleteMany_block now p else Ok p) ;;
  Ok p.

(** [{ isDeleted: false }] *)
Definition not_deleted : value := VObj Plain [("isDeleted", VBool false)].

(** One round of the [for (const key in include)] loop; the state is the
    [include] object, which the loop updates under [key]. *)
Definition include_entry (include : value) (key : string) : result value :=
  own <- has_own_property include key ;;
  if own then
    if in_skipList key then Ok include else
    element <- get_prop include key ;;
    if truthy element then
      include <- (if jstype_eqb (typeof element) TBoolean
                  then set_prop include key
                         (VObj Plain [("where", not_deleted)])
                  else Ok include) ;;
      if jstype_eqb (typeof element) TObject then
        has_where <- has_own_property element "where" ;;
        if negb has_where then
          set_prop include key
            (VObj Plain (set_key "where" not_deleted (spread element)))
        else
          where_ <- get_prop element "where" ;;
          has_isDeleted <- has_own_property where_ "isDeleted" ;;
          if negb has_isDeleted then
            set_prop include key
              (VObj Plain
                 (set_key "where"
                    (VObj Plain
                       (set_key "isDeleted" (VBool false) (spread where_)))
                    (spread element)))
          else Ok include
      else Ok include
    else Ok include
  else Ok include.

(** Third interceptor: included relations.  [include] is the object stored
    under [params.args.include], so what the loop does to it is seen
    through [params.args]; in this tree-shaped store that is the final
    write. *)
Definition include_stage (p : params) : result params :=
  include <- get_prop (args p) "include" ;;
  if truthy include then
    include' <- for_of include_entry (keys (own_entries include)) include ;;
    a <- set_prop (args p) "include" include' ;;
    Ok (with_args p a)
  else Ok p.

(** The chain installed by [applyMiddleware]. *)
Definition applyMiddleware (now : Z) (p : params) : result params :=
  p <- lookup_stage p ;;
  p <- delete_stage now p ;;
  include_stage p.

End Part000.

(** * Properties *)

(** ** Property lists *)

Section AssocFacts.
Context {A : Type}.
Implicit Types (k : string) (v : A) (ps : list (string * A)).

Lemma lookup_set_key_same k v ps : lookup k (set_key k v ps) = Some v.
Proof.
  induction ps as [|[k' v'] ps IH]; simpl.
  - now rewrite String.eqb_refl.
  - destruct (String.eqb k k') eqn:E; simpl.
    + now rewrite String.eqb_refl.
    + now rewrite E.
Qed.

Lemma lookup_set_key_other k k' v ps :
  k <> k' -> lookup k (set_key k' v ps) = lookup k ps.
Proof.
  intros Hne. apply String.eqb_neq in Hne.
  induction ps as [|[k0 v0] ps IH]; simpl.
  - now rewrite Hne.
  - destruct (String.eqb k' k0) eqn:E; simpl.
    + apply String.eqb_eq in E. subst k0. now rewrite Hne.
    + now rewrite IH.
Qed.

Lemma set_key_lookup_id k v ps :
  lookup k ps = Some v -> set_key k v ps = ps.
Proof.
  induction ps as [|[k' v'] ps IH]; simpl; [discriminate|].
  destruct (String.eqb k k') eqn:E.
  - apply String.eqb_eq in E. now intros [= ->]; subst.
  - intros H. now rewrite IH.
Qed.

Lemma lookup_none_keys k ps : lookup k ps = None <-> ~ In k (keys ps).
Proof.
  unfold keys.
  induction ps as [|[k' v'] ps IH]; simpl.
  - tauto.
  - destruct (String.eqb k k') eqn:E.
    + apply String.eqb_eq in E. subst. split; [discriminate | tauto].
    + apply String.eqb_neq in E. rewrite IH. split.
      * intros H [H1 | H1]; [congruence | tauto].
      * tauto.
Qed.

Lemma set_key_fresh k v ps :
  ~ In k (keys ps) -> set_key k v ps = ps ++ [(k, v)].
Proof.
  unfold keys.
  induction ps as [|[k' v'] ps IH]; simpl; [reflexivity|].
  intros H. destruct (String.eqb k k') eqn:E.
  - apply String.eqb_eq in E. subst. tauto.
  - rewrite IH; tauto.
Qed.

Lemma set_key_set_key k v v' ps :
  set_key k v (set_key k v' ps) = set_key k v ps.
Proof.
  induction ps as [|[k0 v0] ps IH]; simpl.
  - now rewrite String.eqb_refl.
  - destruct (String.eqb k k0) eqn:E; simpl.
    + now rewrite String.eqb_refl.
    + now rewrite E, IH.
Qed.

Lemma has_key_set_key_same k v ps : has_key k (set_key k v ps) = true.
Proof. unfold has_key. now rewrite lookup_set_key_same. Qed.

Lemma has_key_set_key_other k k' v ps :
  k <> k' -> has_key k (set_key k' v ps) = has_key k ps.
Proof. intros H. unfold has_key. now rewrite lookup_set_key_other. Qed.

Lemma keys_set_key_present k v ps :
  has_key k ps = true -> keys (set_key k v ps) = keys ps.
Proof.
  unfold has_key, keys.
  induction ps as [|[k' v'] ps IH]; simpl; [discriminate|].
  destruct (String.eqb k k') eqn:E; simpl.
  - apply String.eqb_eq in E. now subst.
  - intros H. now rewrite IH.
Qed.

Lemma has_key_keys k ps : has_key k ps = true <-> In k (keys ps).
Proof.
  unfold has_key. destruct (lookup k ps) eqn:E.
  - split; [intros _ | reflexivity].
    destruct (in_dec string_dec k (keys ps)) as [H | H]; [exact H|].
    apply lookup_none_keys in H. congruence.
  - apply lookup_none_keys in E. split; [discriminate | tauto].
Qed.
End AssocFacts.

(** ** Deletions become tombstone updates *)

Lemma part000_delete_rewrite now m c ps :
  Part000.model_skipped m = false ->
  Part000.delete_stage now (mkParams m "delete" (VObj c ps)) =
  Ok (mkParams m "update"
        (VObj c (set_key "data" (VObj Plain (Part000.tombstone now)) ps))).
Proof.
  intros Hm. unfold Part000.delete_stage. simpl. now rewrite Hm.
Qed.

Lemma middleware_delete_rewrite now m c ps :
  Middleware.delete_stage now (mkParams m "delete" (VObj c ps)) =
  Ok (mkParams m "update"
        (VObj c (set_key "data"
                   (VObj Plain [("deletedAt", new_Date now)]) ps))).
Proof. reflexivity. Qed.

Lemma part000_deleteMany_merge now m c ps cd ds :
  Part000.model_skipped m = false ->
  lookup "data" ps = Some (VObj cd ds) ->
  Part000.delete_stage now (mkParams m "deleteMany" (VObj c ps)) =
  Ok (mkParams m "updateMany"
        (VObj c (set_key "data"
                   (VObj cd (set_key "deletedAt" (new_Date now)
                               (set_key "isDeleted" (VBool true) ds)))
                   ps))).
Proof.
  intros Hm Hd. unfold Part000.delete_stage. simpl. rewrite Hm.
  unfold Part000.deleteMany_block. simpl. now rewrite Hd.
Qed.

Lemma middleware_deleteMany_merge now m c ps cd ds :
  lookup "data" ps = Some (VObj cd ds) ->
  Middleware.delete_stage now (mkParams m "deleteMany" (VObj c ps)) =
  Ok (mkParams m "updateMany"
        (VObj c (set_key "data"
                   (VObj cd (set_key "deletedAt" (new_Date now) ds)) ps))).
Proof.
  intros Hd. unfold Middleware.delete_stage. simpl.
  unfold Middleware.deleteMany_block. simpl. now rewrite Hd.
Qed.

(** C1.  In both variants the deletion interceptor, given a [delete] on an
    argument object (of a model outside the skip list, where there is one),
    forwards an [update] whose [data] is exactly the tombstone fields,
    whatever [data] the caller had put there, the other arguments staying as
    they were; given a [deleteMany] whose [data] is already an object, it
    forwards an [updateMany] whose [data] is that object with the tombstone
    fields set and every other field as the caller set it. *)
Theorem delete_becomes_tombstone_update
    (now : Z) (m : option string) (c : objclass) (ps : props) :
  (Part000.model_skipped m = false ->
   exists a',
     Part000.delete_stage now (mkParams m "delete" (VObj c ps)) =
       Ok (mkParams m "update" a') /\
     get_prop a' "data" =
       Ok (VObj Plain [("isDeleted", VBool true);
                       ("deletedAt", new_Date now)]) /\
     forall k, k <> "data" -> get_prop a' k = get_prop (VObj c ps) k)
  /\
  (exists a',
     Middleware.delete_stage now (mkParams m "delete" (VObj c ps)) =
       Ok (mkParams m "update" a') /\
     get_prop a' "data" = Ok (VObj Plain [("deletedAt", new_Date now)]) /\
     forall k, k <> "data" -> get_prop a' k = get_prop (VObj c ps) k)
  /\
  (forall cd ds,
     Part000.model_skipped m = false ->
     lookup "data" ps = Some (VObj cd ds) ->
     exists ds',
       Part000.delete_stage now (mkParams m "deleteMany" (VObj c ps)) =
         Ok (mkParams m "updateMany"
               (VObj c (set_key "data" (VObj cd ds') ps))) /\
       lookup "isDeleted" ds' = Some (VBool true) /\
       lookup "deletedAt" ds' = Some (new_Date now) /\
       forall k, k <> "isDeleted" -> k <> "deletedAt" ->
                 lookup k ds' = lookup k ds)
  /\
  (forall cd ds,
     lookup "data" ps = Some (VObj cd ds) ->
     exists ds',
       Middleware.delete_stage now (mkParams m "deleteMany" (VObj c ps)) =
         Ok (mkParams m "updateMany"
               (VObj c (set_key "data" (VObj cd ds') ps))) /\
       lookup "deletedAt" ds' = Some (new_Date now) /\
       forall k, k <> "deletedAt" -> lookup k ds' = lookup k ds).
Proof.
  repeat split.
  - intros Hm. eexists. split; [now apply part000_delete_rewrite|]. split.
    + simpl. now rewrite lookup_set_key_same.
    + intros k Hk. simpl. now rewrite lookup_set_key_other.
  - eexists. split; [apply middleware_delete_rewrite|]. split.
    + simpl. now rewrite lookup_set_key_same.
    + intros k Hk. simpl. now rewrite lookup_set_key_other.
  - intros cd ds Hm Hd. eexists.
    split; [exact (part000_deleteMany_merge now m c ps cd ds Hm Hd)|].
    split; [|split].
    + rewrite lookup_set_key_other by discriminate.
      apply lookup_set_key_same.
    + apply lookup_set_key_same.
    + intros k H1 H2. now rewrite !lookup_set_key_other.
  - intros cd ds Hd. eexists.
    split; [exact (middleware_deleteMany_merge now m c ps cd ds Hd)|]. split.
    + apply lookup_set_key_same.
    + intros k H1. now rewrite lookup_set_key_other.
Qed.

Lemma delete_becomes_tombstone_update_witness :
  exists ds',
    Part000.delete_stage 1700000000000
      (mkParams (Some "Order") "deleteMany"
         (VObj Plain [("where", VObj Plain [("status", VStr "X")]);
                      ("data", VObj Plain [("note", VStr "gone")])])) =
    Ok (mkParams (Some "Order") "updateMany"
          (VObj Plain
             (set_key "data" (VObj Plain ds')
                [("where", VObj Plain [("status", VStr "X")]);
                 ("data", VObj Plain [("note", VStr "gone")])]))) /\
    lookup "isDeleted" ds' = Some (VBool true) /\
    lookup "deletedAt" ds' = Some (new_Date 1700000000000) /\
    forall k, k <> "isDeleted" -> k <> "deletedAt" ->
              lookup k ds' = lookup k [("note", VStr "gone")].
Proof.
  apply (proj1 (proj2 (proj2
           (delete_becomes_tombstone_update 1700000000000 (Some "Order") Plain
              [("where", VObj Plain [("status", VStr "X")]);
               ("data", VObj Plain [("note", VStr "gone")])])))
         Plain [("note", VStr "gone")]).
  - reflexivity.
  - reflexivity.
Defined.

(** ** Unique lookups become filtered first-match lookups *)

(** [typeof v !== "object"] *)
Definition is_scalar (v : value) : bool :=
  negb (jstype_eqb (typeof v) TObject).

(** The rebuilt predicate in the words of the specification: scalar entries
    are copied as they are, an entry whose value is a mapping is replaced by
    the entries of that mapping. *)
Definition flattened_spec (ws : props) : props :=
  flat_map (fun arg => if is_scalar (snd arg) then [arg]
                       else own_entries (snd arg)) ws.

Lemma keys_app (A : Type) (l1 l2 : list (string * A)) :
  keys (l1 ++ l2) = keys l1 ++ keys l2.
Proof. unfold keys. apply map_app. Qed.

Lemma for_of_set_append (subs w : props) :
  NoDup (keys (w ++ subs)) ->
  for_of (fun w' subarg => Ok (set_key (fst subarg) (snd subarg) w')) subs w =
  Ok (w ++ subs).
Proof.
  revert w. induction subs as [|[k v] subs IH]; intros w Hnd; simpl.
  - now rewrite app_nil_r.
  - rewrite set_key_fresh.
    + rewrite IH; rewrite <- app_assoc; [reflexivity | exact Hnd].
    + rewrite keys_app in Hnd. simpl in Hnd.
      apply NoDup_remove_2 in Hnd. intros H. apply Hnd.
      apply in_or_app. now left.
Qed.

Lemma hoist_loop_flattens (ws w : props) :
  (forall k, ~ In (k, VNull) ws) ->
  NoDup (keys (w ++ flattened_spec ws)) ->
  for_of hoist_entry ws w = Ok (w ++ flattened_spec ws).
Proof.
  revert w. induction ws as [|[k v] ws IH]; intros w Hnull Hnd; simpl.
  - now rewrite app_nil_r.
  - assert (Hnull' : forall k0, ~ In (k0, VNull) ws).
    { intros k0 H. apply (Hnull k0). now right. }
    simpl in Hnd. unfold hoist_entry, is_scalar in *. simpl in *.
    destruct v as [| |b|n|s|c es]; simpl in *;
      try (rewrite set_key_fresh;
           [ rewrite IH; [now rewrite <- app_assoc | exact Hnull'
                         | now rewrite <- app_assoc]
           | rewrite keys_app in Hnd; simpl in Hnd;
             apply NoDup_remove_2 in Hnd; intros H; apply Hnd;
             apply in_or_app; now left ]).
    + exfalso. apply (Hnull k). now left.
    + rewrite for_of_set_append.
      * simpl. rewrite IH; [now rewrite <- app_assoc | exact Hnull'
                           | now rewrite <- app_assoc].
      * rewrite app_assoc, keys_app in Hnd.
        now apply NoDup_app_remove_r in Hnd.
Qed.

Lemma part000_findUnique_flatten m c ps w :
  Part000.model_skipped m = false ->
  lookup "where" ps = Some w ->
  is_nullish w = false ->
  (forall k, ~ In (k, VNull) (own_entries w)) ->
  NoDup (keys (flattened_spec (own_entries w))) ->
  ~ In "isDeleted" (keys (flattened_spec (own_entries w))) ->
  Part000.lookup_stage (mkParams m "findUnique" (VObj c ps)) =
  Ok (mkParams m "findFirst"
        (VObj c (set_key "where"
                   (VObj Plain (flattened_spec (own_entries w) ++
                                [("isDeleted", VBool false)])) ps))).
Proof.
  intros Hm Hw Hn Hnull Hnd Hfresh.
  unfold Part000.lookup_stage. simpl. rewrite Hm.
  unfold Part000.findUnique_block. simpl. rewrite Hw. simpl.
  assert (He : object_entries w = Ok (own_entries w))
    by (destruct w; simpl in *; congruence).
  rewrite He. simpl.
  rewrite (hoist_loop_flattens (own_entries w) []) by assumption.
  unfold with_args, with_action. simpl.
  rewrite set_key_set_key.
  rewrite (set_key_fresh "isDeleted") by assumption. reflexivity.
Qed.

Lemma middleware_findUnique_flatten m c ps w :
  lookup "where" ps = Some w ->
  is_nullish w = false ->
  (forall k, ~ In (k, VNull) (own_entries w)) ->
  NoDup (keys (flattened_spec (own_entries w))) ->
  ~ In "deletedAt" (keys (flattened_spec (own_entries w))) ->
  Middleware.lookup_stage (mkParams m "findUnique" (VObj c ps)) =
  Ok (mkParams m "findFirst"
        (VObj c (set_key "where"
                   (VObj Plain (flattened_spec (own_entries w) ++
                                [("deletedAt", VNull)])) ps))).
Proof.
  intros Hw Hn Hnull Hnd Hfresh.
  unfold Middleware.lookup_stage. simpl.
  unfold Middleware.findUnique_block. simpl. rewrite Hw. simpl.
  assert (He : object_entries w = Ok (own_entries w))
    by (destruct w; simpl in *; congruence).
  rewrite He. simpl.
  rewrite (hoist_loop_flattens (own_entries w) []) by assumption.
  unfold with_args, with_action. simpl.
  rewrite set_key_set_key.
  rewrite (set_key_fresh "deletedAt") by assumption. reflexivity.
Qed.

(** C2.  For a [findUnique] whose [where] is the composite-key shape
    [{k1_k2: {k1: v1, k2: v2}}] (two different columns, neither of them the
    tombstone field), the lookup interceptor of either variant forwards a
    [findFirst] whose [where] is [{k1: v1, k2: v2}] followed by the
    not-tombstoned clause.  More generally, for any [where] without a [null]
    entry whose flattened keys are distinct and do not include the tombstone
    field, the forwarded [where] is the flattened predicate of the
    specification (scalar entries as they were, the entries of each nested
    mapping in place of that mapping) followed by the not-tombstoned
    clause. *)
Theorem findUnique_flattens_composite_key
    (m : option string) (c : objclass) (ps : props) :
  (forall cw k12 c2 k1 v1 k2 v2,
     lookup "where" ps =
       Some (VObj cw [(k12, VObj c2 [(k1, v1); (k2, v2)])]) ->
     k1 <> k2 ->
     (Part000.model_skipped m = false ->
      k1 <> "isDeleted" -> k2 <> "isDeleted" ->
      Part000.lookup_stage (mkParams m "findUnique" (VObj c ps)) =
      Ok (mkParams m "findFirst"
            (VObj c (set_key "where"
                       (VObj Plain [(k1, v1); (k2, v2);
                                    ("isDeleted", VBool false)]) ps))))
     /\
     (k1 <> "deletedAt" -> k2 <> "deletedAt" ->
      Middleware.lookup_stage (mkParams m "findUnique" (VObj c ps)) =
      Ok (mkParams m "findFirst"
            (VObj c (set_key "where"
                       (VObj Plain [(k1, v1); (k2, v2);
                                    ("deletedAt", VNull)]) ps)))))
  /\
  (forall w,
     lookup "where" ps = Some w ->
     is_nullish w = false ->
     (forall k, ~ In (k, VNull) (own_entries w)) ->
     NoDup (keys (flattened_spec (own_entries w))) ->
     (Part000.model_skipped m = false ->
      ~ In "isDeleted" (keys (flattened_spec (own_entries w))) ->
      Part000.lookup_stage (mkParams m "findUnique" (VObj c ps)) =
      Ok (mkParams m "findFirst"
            (VObj c (set_key "where"
                       (VObj Plain (flattened_spec (own_entries w) ++
                                    [("isDeleted", VBool false)])) ps))))
     /\
     (~ In "deletedAt" (keys (flattened_spec (own_entries w))) ->
      Middleware.lookup_stage (mkParams m "findUnique" (VObj c ps)) =
      Ok (mkParams m "findFirst"
            (VObj c (set_key "where"
                       (VObj Plain (flattened_spec (own_entries w) ++
                                    [("deletedAt", VNull)])) ps))))).
Proof.
  split.
  - intros cw k12 c2 k1 v1 k2 v2 Hw Hne.
    assert (Hnull : forall k,
               ~ In (k, VNull)
                   (own_entries (VObj cw [(k12, VObj c2 [(k1, v1); (k2, v2)])]))).
    { intros k [H | []]. discriminate. }
    assert (Hnd : NoDup (keys (flattened_spec
               (own_entries (VObj cw [(k12, VObj c2 [(k1, v1); (k2, v2)])]))))).
    { simpl. repeat constructor; simpl; intuition congruence. }
    split.
    + intros Hm H1 H2.
      apply (part000_findUnique_flatten m c ps _ Hm Hw eq_refl Hnull Hnd).
      simpl. intuition congruence.
    + intros H1 H2.
      apply (middleware_findUnique_flatten m c ps _ Hw eq_refl Hnull Hnd).
      simpl. intuition congruence.
  - intros w Hw Hn Hnull Hnd. split.
    + intros Hm Hf. now apply part000_findUnique_flatten.
    + intros Hf. now apply middleware_findUnique_flatten.
Qed.

Lemma findUnique_flattens_composite_key_witness :
  Part000.lookup_stage
    (mkParams (Some "Membership") "findUnique"
       (VObj Plain
          [("where",
            VObj Plain
              [("userId_teamId",
                VObj Plain [("userId", VStr "u1"); ("teamId", VStr "t1")])])]))
  = Ok (mkParams (Some "Membership") "findFirst"
          (VObj Plain
             (set_key "where"
                (VObj Plain [("userId", VStr "u1"); ("teamId", VStr "t1");
                             ("isDeleted", VBool false)])
                [("where",
                  VObj Plain
                    [("userId_teamId",
                      VObj Plain [("userId", VStr "u1");
                                  ("teamId", VStr "t1")])])]))).
Proof.
  apply (proj1 (proj1 (findUnique_flattens_composite_key
                         (Some "Membership") Plain
                         [("where",
                           VObj Plain
                             [("userId_teamId",
                               VObj Plain [("userId", VStr "u1");
                                           ("teamId", VStr "t1")])])])
                 Plain "userId_teamId" Plain
                 "userId" (VStr "u1") "teamId" (VStr "t1")
                 eq_refl ltac:(discriminate))).
  - reflexivity.
  - discriminate.
  - discriminate.
Defined.

(** ** A [null] entry in a unique lookup *)

Lemma hoist_loop_null (ws w : props) (k : string) :
  In (k, VNull) ws -> for_of hoist_entry ws w = TypeError.
Proof.
  revert w. induction ws as [|arg ws IH]; intros w Hin; [destruct Hin|].
  simpl. destruct Hin as [-> | Hin].
  - reflexivity.
  - destruct (hoist_entry w arg) as [w'|]; simpl; [now apply IH | reflexivity].
Qed.

(** C5.  A [findUnique] whose [where] object has an entry with value [null]
    is not rewritten: [typeof null] is ["object"], so the loop takes the
    hoisting branch and [Object.entries(null)] throws, in both variants. *)
Theorem findUnique_null_entry_throws
    (m : option string) (c cw : objclass) (ps ws : props) (k : string) :
  lookup "where" ps = Some (VObj cw ws) ->
  In (k, VNull) ws ->
  (Part000.model_skipped m = false ->
   Part000.lookup_stage (mkParams m "findUnique" (VObj c ps)) = TypeError)
  /\ Middleware.lookup_stage (mkParams m "findUnique" (VObj c ps))
     = TypeError.
Proof.
  intros Hw Hin. split.
  - intros Hm. unfold Part000.lookup_stage. simpl. rewrite Hm.
    unfold Part000.findUnique_block. simpl. rewrite Hw. simpl.
    now rewrite (hoist_loop_null ws [] k Hin).
  - unfold Middleware.lookup_stage, Middleware.findUnique_block. simpl.
    rewrite Hw. simpl. now rewrite (hoist_loop_null ws [] k Hin).
Qed.

Lemma findUnique_null_entry_throws_witness :
  Part000.lookup_stage
    (mkParams (Some "Order") "findUnique"
       (VObj Plain [("where", VObj Plain [("id", VNull)])])) = TypeError
  /\ Middleware.lookup_stage
       (mkParams (Some "Order") "findUnique"
          (VObj Plain [("where", VObj Plain [("id", VNull)])])) = TypeError.
Proof.
  destruct (findUnique_null_entry_throws (Some "Order") Plain Plain
              [("where", VObj Plain [("id", VNull)])] [("id", VNull)] "id"
              eq_refl (or_introl eq_refl)) as [H1 H2].
  split; [apply H1; reflexivity | exact H2].
Defined.

(** ** Descriptors without arguments *)

(** C6.  With [params.args] absent, the [delete] and [findUnique] paths of
    both variants and the relation-inclusion interceptor throw instead of
    initialising the argument bag; so does the whole chain on a [findFirst]
    without arguments.  The [findMany], [deleteMany] and [update] paths do
    initialise it. *)
Theorem absent_args_throw (m : option string) (a : string) (now : Z) :
  Part000.include_stage (mkParams m a VUndefined) = TypeError
  /\ Middleware.delete_stage now (mkParams m "delete" VUndefined) = TypeError
  /\ Middleware.lookup_stage (mkParams m "findUnique" VUndefined) = TypeError
  /\ (Part000.model_skipped m = false ->
      Part000.delete_stage now (mkParams m "delete" VUndefined) = TypeError
      /\ Part000.lookup_stage (mkParams m "findUnique" VUndefined)
         = TypeError)
  /\ Part000.applyMiddleware now (mkParams m "findFirst" VUndefined)
     = TypeError.
Proof.
  split; [reflexivity|]. split; [reflexivity|]. split; [reflexivity|].
  split.
  - intros Hm. unfold Part000.delete_stage, Part000.lookup_stage. simpl.
    rewrite Hm. split; reflexivity.
  - unfold Part000.applyMiddleware, Part000.lookup_stage,
      Part000.delete_stage. simpl.
    destruct (Part000.model_skipped m) eqn:Hm; simpl; rewrite Hm;
      reflexivity.
Qed.

Lemma absent_args_throw_witness :
  Part000.delete_stage 0 (mkParams (Some "User") "delete" VUndefined)
  = TypeError
  /\ Part000.lookup_stage (mkParams (Some "User") "findUnique" VUndefined)
     = TypeError.
Proof.
  apply (proj1 (proj2 (proj2 (proj2
           (absent_args_throw (Some "User") "delete" 0))))).
  reflexivity.
Defined.

(** The sibling paths that do initialise a missing argument bag. *)
Lemma absent_args_initialised (m : option string) (now : Z) :
  Part000.model_skipped m = false ->
  Part000.lookup_stage (mkParams m "findMany" VUndefined) =
    Ok (mkParams m "findMany"
          (VObj Plain [("where", VObj Plain [("isDeleted", VBool false)])]))
  /\ Part000.delete_stage now (mkParams m "deleteMany" VUndefined) =
       Ok (mkParams m "updateMany"
             (VObj Plain [("data", VObj Plain (Part000.tombstone now))]))
  /\ Middleware.lookup_stage (mkParams m "findMany" VUndefined) =
       Ok (mkParams m "findMany"
             (VObj Plain [("where", VObj Plain [("deletedAt", VNull)])]))
  /\ Middleware.delete_stage now (mkParams m "deleteMany" VUndefined) =
       Ok (mkParams m "updateMany"
             (VObj Plain [("data", VObj Plain [("deletedAt", new_Date now)])]))
  /\ Middleware.update_stage now (mkParams m "update" VUndefined) =
       Ok (mkParams m "update"
             (VObj Plain [("data", VObj Plain [("updatedAt", new_Date now)])])).
Proof.
  intros Hm. unfold Part000.lookup_stage, Part000.delete_stage. simpl.
  rewrite Hm. repeat split.
Qed.

(** ** The relation-inclusion loop *)

(** [v[k]] on a property list. *)
Definition elt (k : string) (ps : props) : value :=
  match lookup k ps with
  | Some x => x
  | None => VUndefined
  end.

(** What one round of the loop assigns under a key outside the skip list,
    as a function of the element found there; [None] when it assigns
    nothing. *)
Definition entry_rewrite (element : value) : result (option value) :=
  match element with
  | VBool true => Ok (Some (VObj Plain [("where", Part000.not_deleted)]))
  | VObj _ es =>
      if has_key "where" es then
        where_ <- get_prop element "where" ;;
        has_isDeleted <- has_own_property where_ "isDeleted" ;;
        if has_isDeleted then Ok None
        else Ok (Some (VObj Plain
                         (set_key "where"
                            (VObj Plain (set_key "isDeleted" (VBool false)
                                           (spread where_)))
                            es)))
      else Ok (Some (VObj Plain (set_key "where" Part000.not_deleted es)))
  | _ => Ok None
  end.

(** One round of the loop on the property list of an [include] object. *)
Definition entry_step (ps : props) (k : string) : result props :=
  if has_key k ps then
    if Part000.in_skipList k then Ok ps
    else
      r <- entry_rewrite (elt k ps) ;;
      Ok (match r with Some e' => set_key k e' ps | None => ps end)
  else Ok ps.

Lemma include_entry_step (c : objclass) (ps : props) (k : string) :
  Part000.include_entry (VObj c ps) k =
  (ps' <- entry_step ps k ;; Ok (VObj c ps')).
Proof.
  unfold Part000.include_entry, entry_step. simpl.
  destruct (has_key k ps); [|reflexivity].
  destruct (Part000.in_skipList k); [reflexivity|].
  fold (elt k ps).
  destruct (elt k ps) as [| |[|]|n|s|ce es]; simpl; try reflexivity.
  - destruct (negb (n =? 0)%Z); reflexivity.
  - destruct (negb (s =? "")); reflexivity.
  - destruct (has_key "where" es); simpl; [|reflexivity].
    fold (elt "where" es).
    destruct (elt "where" es) as [| |b|n|s|cw ws]; simpl; try reflexivity.
    + destruct (has_key "isDeleted" (chars_from 0 s)); reflexivity.
    + destruct (has_key "isDeleted" ws); reflexivity.
Qed.

Lemma include_loop_step (c : objclass) (ks : list string) (ps : props) :
  for_of Part000.include_entry ks (VObj c ps) =
  (ps' <- for_of entry_step ks ps ;; Ok (VObj c ps')).
Proof.
  revert ps. induction ks as [|k ks IH]; intros ps; simpl; [reflexivity|].
  rewrite include_entry_step.
  destruct (entry_step ps k) as [ps'|]; simpl; [apply IH | reflexivity].
Qed.

Lemma for_of_fixed {A S : Type} (body : S -> A -> result S)
    (xs : list A) (s : S) :
  (forall x, In x xs -> body s x = Ok s) -> for_of body xs s = Ok s.
Proof.
  induction xs as [|x xs IH]; intros H; simpl; [reflexivity|].
  rewrite H by now left. simpl. apply IH. intros y Hy. apply H. now right.
Qed.

Lemma chars_from_values (k : string) (s : string) (i : nat) (v : value) :
  lookup k (chars_from i s) = Some v -> exists ch, v = VStr (String ch "").
Proof.
  revert i. induction s as [|a s IH]; intros i; simpl; [discriminate|].
  destruct (String.eqb k (index_key i)).
  - intros [= <-]. now exists a.
  - apply IH.
Qed.

(** On an [include] that is not an object the loop assigns nothing. *)
Lemma include_loop_primitive (inc : value) :
  (forall c ps, inc <> VObj c ps) ->
  for_of Part000.include_entry (keys (own_entries inc)) inc = Ok inc.
Proof.
  intros Hno. destruct inc as [| |b|n|s|c ps]; try reflexivity.
  - apply for_of_fixed. intros k _.
    unfold Part000.include_entry. simpl.
    unfold has_key. destruct (lookup k (chars_from 0 s)) as [v|] eqn:E;
      [|reflexivity].
    destruct (Part000.in_skipList k); [reflexivity|].
    destruct (chars_from_values _ _ _ _ E) as [ch ->]. reflexivity.
  - now destruct (Hno c ps).
Qed.

(** A key is settled when a round of the loop on it assigns nothing. *)
Definition settled (ps : props) (k : string) : Prop :=
  has_key k ps = false \/ Part000.in_skipList k = true \/
  entry_rewrite (elt k ps) = Ok None.

Lemma settled_step (ps : props) (k : string) :
  settled ps k -> entry_step ps k = Ok ps.
Proof.
  unfold settled, entry_step. intros [H | [H | H]].
  - now rewrite H.
  - rewrite H. now destruct (has_key k ps).
  - rewrite H. simpl. now destruct (has_key k ps), (Part000.in_skipList k).
Qed.

Lemma elt_set_key_same (k : string) (v : value) (ps : props) :
  elt k (set_key k v ps) = v.
Proof. unfold elt. now rewrite lookup_set_key_same. Qed.

Lemma elt_set_key_other (k k' : string) (v : value) (ps : props) :
  k <> k' -> elt k (set_key k' v ps) = elt k ps.
Proof. intros H. unfold elt. now rewrite lookup_set_key_other. Qed.

Lemma entry_rewrite_idempotent (e e' : value) :
  entry_rewrite e = Ok (Some e') -> entry_rewrite e' = Ok None.
Proof.
  destruct e as [| |[|]|n|s|ce es]; simpl; try discriminate.
  - intros [= <-]. reflexivity.
  - destruct (has_key "where" es) eqn:Hw.
    + fold (elt "where" es).
      destruct (elt "where" es) as [| |b|n|s|cw ws]; simpl; try discriminate;
        try (intros [= <-]; simpl;
             rewrite has_key_set_key_same; simpl;
             rewrite lookup_set_key_same; reflexivity).
      * destruct (has_key "isDeleted" (chars_from 0 s)); [discriminate|].
        intros [= <-]. simpl.
        rewrite has_key_set_key_same. simpl.
        rewrite lookup_set_key_same. simpl.
        now rewrite has_key_set_key_same.
      * destruct (has_key "isDeleted" ws); [discriminate|].
        intros [= <-]. simpl.
        rewrite has_key_set_key_same. simpl.
        rewrite lookup_set_key_same. simpl.
        now rewrite has_key_set_key_same.
    + intros [= <-]. simpl.
      rewrite has_key_set_key_same. simpl.
      rewrite lookup_set_key_same. reflexivity.
Qed.

Lemma step_settles (ps ps' : props) (k : string) :
  entry_step ps k = Ok ps' -> settled ps' k.
Proof.
  unfold entry_step, settled.
  destruct (has_key k ps) eqn:Hk; [|intros [= <-]; now left].
  destruct (Part000.in_skipList k) eqn:Hs; [intros _; right; now left|].
  destruct (entry_rewrite (elt k ps)) as [[e'|]|] eqn:Hr; simpl;
    try discriminate; intros [= <-]; right; right.
  - rewrite elt_set_key_same. eapply entry_rewrite_idempotent; eassumption.
  - exact Hr.
Qed.

Lemma step_frame (ps ps' : props) (k k0 : string) :
  entry_step ps k = Ok ps' -> k0 <> k -> lookup k0 ps' = lookup k0 ps.
Proof.
  unfold entry_step. intros H Hne.
  destruct (has_key k ps); [|now injection H as <-].
  destruct (Part000.in_skipList k); [now injection H as <-|].
  destruct (entry_rewrite (elt k ps)) as [[e'|]|]; simpl in H;
    try discriminate; injection H as <-; [|reflexivity].
  now apply lookup_set_key_other.
Qed.

Lemma step_keys (ps ps' : props) (k : string) :
  entry_step ps k = Ok ps' -> keys ps' = keys ps.
Proof.
  unfold entry_step. intros H.
  destruct (has_key k ps) eqn:Hk; [|now injection H as <-].
  destruct (Part000.in_skipList k); [now injection H as <-|].
  destruct (entry_rewrite (elt k ps)) as [[e'|]|]; simpl in H;
    try discriminate; injection H as <-; [|reflexivity].
  now apply keys_set_key_present.
Qed.

Lemma step_keeps_settled (ps ps' : props) (k k0 : string) :
  entry_step ps k = Ok ps' -> settled ps k0 -> settled ps' k0.
Proof.
  intros H Hs. destruct (string_dec k0 k) as [-> | Hne].
  - eapply step_settles; eassumption.
  - pose proof (step_frame _ _ _ _ H Hne) as Hl.
    unfold settled, has_key, elt in *. now rewrite Hl.
Qed.

(** A settled key keeps its element through a round on any key. *)
Lemma step_keeps_element (ps ps' : props) (k k0 : string) :
  entry_step ps k = Ok ps' -> settled ps k0 -> lookup k0 ps' = lookup k0 ps.
Proof.
  intros H Hs. destruct (string_dec k0 k) as [-> | Hne].
  - rewrite (settled_step _ _ Hs) in H. now injection H as <-.
  - eapply step_frame; eassumption.
Qed.

Lemma loop_settles (ks : list string) (ps ps' : props) :
  for_of entry_step ks ps = Ok ps' ->
  keys ps' = keys ps /\
  (forall k, In k ks -> settled ps' k) /\
  (forall k, settled ps k -> settled ps' k /\ lookup k ps' = lookup k ps).
Proof.
  revert ps. induction ks as [|k ks IH]; intros ps H; simpl in H.
  - injection H as <-. split; [reflexivity|]. split; [intros k []|].
    intros k Hs. now split.
  - destruct (entry_step ps k) as [ps1|] eqn:Hstep; simpl in H;
      [|discriminate].
    destruct (IH _ H) as (Hkeys & Hin & Hkeep).
    split; [|split].
    + rewrite Hkeys. eapply step_keys; eassumption.
    + intros k0 [<- | Hk0]; [|now apply Hin].
      apply Hkeep. eapply step_settles; eassumption.
    + intros k0 Hs.
      destruct (Hkeep k0 (step_keeps_settled _ _ _ _ Hstep Hs)) as [H1 H2].
      split; [exact H1|].
      rewrite H2. eapply step_keeps_element; eassumption.
Qed.

Lemma loop_all_settled (ks : list string) (ps : props) :
  (forall k, In k ks -> settled ps k) -> for_of entry_step ks ps = Ok ps.
Proof.
  intros H. apply for_of_fixed. intros k Hk. apply settled_step. now apply H.
Qed.

(** A second run of the loop on its own result assigns nothing. *)
Lemma include_loop_idempotent (inc inc' : value) :
  for_of Part000.include_entry (keys (own_entries inc)) inc = Ok inc' ->
  truthy inc = true ->
  truthy inc' = true /\
  for_of Part000.include_entry (keys (own_entries inc')) inc' = Ok inc'.
Proof.
  intros H Ht.
  assert (Hcases : (exists c ps, inc = VObj c ps) \/
                   (forall c ps, inc <> VObj c ps)).
  { destruct inc; try (right; intros; discriminate). left; eauto. }
  destruct Hcases as [(c & ps & ->) | Hprim].
  - simpl in H. rewrite include_loop_step in H.
    destruct (for_of entry_step (keys ps) ps) as [ps'|] eqn:Hloop;
      simpl in H; [|discriminate].
    injection H as <-. split; [reflexivity|].
    simpl. rewrite include_loop_step.
    destruct (loop_settles _ _ _ Hloop) as (Hkeys & Hin & _).
    rewrite loop_all_settled; [reflexivity|].
    intros k Hk. apply Hin. now rewrite <- Hkeys.
  - rewrite include_loop_primitive in H by assumption.
    injection H as <-. split; [exact Ht|].
    now apply include_loop_primitive.
Qed.

Lemma include_stage_idempotent (p p1 : params) :
  Part000.include_stage p = Ok p1 -> Part000.include_stage p1 = Ok p1.
Proof.
  intros H. pose proof H as H0. unfold Part000.include_stage in H.
  destruct (get_prop (args p) "include") as [inc|] eqn:Hinc; simpl in H;
    [|discriminate].
  destruct (truthy inc) eqn:Ht; [|now injection H as <-].
  destruct (for_of Part000.include_entry (keys (own_entries inc)) inc)
    as [inc'|] eqn:Hloop; simpl in H; [|discriminate].
  destruct (args p) as [| |b|n|s|c aps] eqn:Ha; simpl in H; try discriminate.
  injection H as <-.
  destruct (include_loop_idempotent _ _ Hloop Ht) as [Ht' Hloop'].
  unfold Part000.include_stage, with_args. simpl.
  rewrite lookup_set_key_same, Ht', Hloop'. simpl.
  now rewrite set_key_set_key.
Qed.

(** The interceptor touches nothing but [args.include]. *)
Lemma include_stage_frame (p p1 : params) :
  Part000.include_stage p = Ok p1 ->
  model p1 = model p /\ action p1 = action p /\
  forall k, k <> "include" -> get_prop (args p1) k = get_prop (args p) k.
Proof.
  intros H. unfold Part000.include_stage in H.
  destruct (get_prop (args p) "include") as [inc|] eqn:Hinc; simpl in H;
    [|discriminate].
  destruct (truthy inc) eqn:Ht; [|injection H as <-; tauto].
  destruct (for_of Part000.include_entry (keys (own_entries inc)) inc)
    as [inc'|] eqn:Hloop; simpl in H; [|discriminate].
  destruct (args p) as [| |b|n|s|c aps] eqn:Ha; simpl in H; try discriminate.
  injection H as <-. simpl. repeat split.
  intros k Hk. now rewrite lookup_set_key_other.
Qed.

(** ** Models on the skip list *)

Lemma with_args_same (p : params) : with_args p (args p) = p.
Proof. now destruct p. Qed.

Lemma include_stage_all_skipped (p : params) (c : objclass) (ps : props) :
  args p = VObj c ps ->
  (forall inc, lookup "include" ps = Some inc -> truthy inc = true ->
               forallb Part000.in_skipList (keys (own_entries inc)) = true) ->
  Part000.include_stage p = Ok p.
Proof.
  intros Ha Hall. unfold Part000.include_stage. rewrite Ha. simpl.
  destruct (lookup "include" ps) as [inc|] eqn:Hinc; [|reflexivity].
  destruct (truthy inc) eqn:Ht; [|reflexivity].
  specialize (Hall inc eq_refl Ht).
  assert (Hloop : for_of Part000.include_entry (keys (own_entries inc)) inc
                  = Ok inc).
  { destruct inc as [| |b|n|s|ci es];
      try (apply include_loop_primitive; intros; discriminate).
    simpl. rewrite include_loop_step, loop_all_settled; [reflexivity|].
    intros k Hk. right. left.
    simpl in Hall. rewrite forallb_forall in Hall. now apply Hall. }
  rewrite Hloop. simpl. rewrite (set_key_lookup_id _ _ _ Hinc).
  rewrite <- Ha. now rewrite with_args_same.
Qed.

Definition organization_with_users : params :=
  mkParams (Some "organization") "findMany"
    (VObj Plain [("include", VObj Plain [("users", VBool true)])]).

(** C3, as stated, fails: the relation-inclusion interceptor does not look
    at [params.model]; a descriptor of the skip-listed model [organization]
    that includes [users] leaves it with [include.users] rewritten. *)
Lemma skip_listed_model_include_rewritten :
  Part000.model_skipped (model organization_with_users) = true /\
  Part000.include_stage organization_with_users =
    Ok (mkParams (Some "organization") "findMany"
          (VObj Plain
             [("include",
               VObj Plain
                 [("users",
                   VObj Plain
                     [("where", VObj Plain [("isDeleted", VBool false)])])])]))
  /\ Part000.include_stage organization_with_users
     <> Ok organization_with_users
  /\ Part000.applyMiddleware 0 organization_with_users
     <> Ok organization_with_users.
Proof. repeat split; discriminate. Qed.

(** C3, amended.  For a descriptor whose model is on the skip list, the
    lookup and deletion interceptors forward it unchanged, whatever its
    action and arguments.  The relation-inclusion interceptor consults the
    skip list for the keys of [include], not for the model: it never changes
    model or action, and given an argument object it forwards the descriptor
    unchanged when [include] is absent or falsy or all its keys are on the
    skip list. *)
Theorem skip_listed_model_forwarded (p : params) :
  Part000.model_skipped (model p) = true ->
  Part000.lookup_stage p = Ok p /\
  (forall now, Part000.delete_stage now p = Ok p) /\
  (forall c ps,
     args p = VObj c ps ->
     (forall inc, lookup "include" ps = Some inc -> truthy inc = true ->
                  forallb Part000.in_skipList (keys (own_entries inc)) = true) ->
     Part000.include_stage p = Ok p) /\
  (forall p', Part000.include_stage p = Ok p' ->
              model p' = model p /\ action p' = action p).
Proof.
  intros Hm. split; [|split; [|split]].
  - unfold Part000.lookup_stage. now rewrite Hm.
  - intros now. unfold Part000.delete_stage. now rewrite Hm.
  - intros c ps. apply include_stage_all_skipped.
  - intros p' H. destruct (include_stage_frame _ _ H) as (H1 & H2 & _).
    now split.
Qed.

Lemma skip_listed_model_forwarded_witness :
  Part000.lookup_stage
    (mkParams (Some "organization") "findUnique"
       (VObj Plain [("where", VObj Plain [("id", VStr "A")]);
                    ("include", VObj Plain [("parentOrganization", VBool true)])]))
  = Ok (mkParams (Some "organization") "findUnique"
          (VObj Plain [("where", VObj Plain [("id", VStr "A")]);
                       ("include",
                        VObj Plain [("parentOrganization", VBool true)])])).
Proof.
  apply (proj1 (skip_listed_model_forwarded
                  (mkParams (Some "organization") "findUnique"
                     (VObj Plain
                        [("where", VObj Plain [("id", VStr "A")]);
                         ("include",
                          VObj Plain [("parentOrganization", VBool true)])]))
                  eq_refl)).
Defined.

(** ** Explicit tombstone filters *)

Lemma lookup_In (A : Type) (k : string) (v : A) (ps : list (string * A)) :
  lookup k ps = Some v -> In (k, v) ps.
Proof.
  induction ps as [|[k' v'] ps IH]; simpl; [discriminate|].
  destruct (String.eqb k k') eqn:E.
  - apply String.eqb_eq in E. intros [= ->]. subst. now left.
  - intros H. right. now apply IH.
Qed.

Lemma explicit_filter_settled (e w : value) :
  get_prop e "where" = Ok w ->
  has_own_property w "isDeleted" = Ok true ->
  entry_rewrite e = Ok None.
Proof.
  intros Hw Hd.
  destruct e as [| |[|]|n|s|ce es]; simpl in *; try discriminate;
    try reflexivity.
  - injection Hw as <-. discriminate.
  - unfold has_key. destruct (lookup "where" es) as [w0|]; simpl.
    + injection Hw as ->. now rewrite Hd.
    + injection Hw as <-. discriminate.
Qed.

(** An included relation whose [where] already has the tombstone field keeps
    its element through the interceptor. *)
Lemma include_stage_keeps_explicit
    (p p' : params) (c : objclass) (ps : props) (inc : value)
    (k : string) (e w : value) :
  args p = VObj c ps ->
  lookup "include" ps = Some inc ->
  lookup k (own_entries inc) = Some e ->
  get_prop e "where" = Ok w ->
  has_own_property w "isDeleted" = Ok true ->
  Part000.include_stage p = Ok p' ->
  exists inc', get_prop (args p') "include" = Ok inc' /\
               lookup k (own_entries inc') = Some e.
Proof.
  intros Ha Hinc Hk Hw Hd H. unfold Part000.include_stage in H.
  rewrite Ha in H. simpl in H. rewrite Hinc in H.
  destruct (truthy inc) eqn:Ht.
  - destruct (for_of Part000.include_entry (keys (own_entries inc)) inc)
      as [inc'|] eqn:Hloop; simpl in H; [|discriminate].
    injection H as <-. exists inc'. simpl.
    rewrite lookup_set_key_same. split; [reflexivity|].
    destruct inc as [| |b|n|s|ci es];
      try (rewrite include_loop_primitive in Hloop by (intros; discriminate);
           injection Hloop as <-; exact Hk).
    simpl in Hloop, Hk. rewrite include_loop_step in Hloop.
    destruct (for_of entry_step (keys es) es) as [es'|] eqn:Hl;
      simpl in Hloop; [|discriminate].
    injection Hloop as <-. simpl.
    destruct (loop_settles _ _ _ Hl) as (_ & _ & Hkeep).
    destruct (Hkeep k) as [_ ->]; [|exact Hk].
    right. right. unfold elt. rewrite Hk.
    eapply explicit_filter_settled; eassumption.
  - injection H as <-. exists inc. rewrite Ha. simpl. rewrite Hinc.
    now split.
Qed.

(** An element is usable by the loop unless it is an object whose own
    [where] is [null] or [undefined]. *)
Definition where_usable (e : value) : bool :=
  match e with
  | VObj _ es =>
      match lookup "where" es with
      | Some w => negb (is_nullish w)
      | None => true
      end
  | _ => true
  end.

Definition all_usable (ps : props) : Prop :=
  Forall (fun kv => where_usable (snd kv) = true) ps.

Lemma all_usable_set_key (k : string) (e : value) (ps : props) :
  all_usable ps -> where_usable e = true -> all_usable (set_key k e ps).
Proof.
  unfold all_usable. intros H He.
  induction ps as [|[k' v'] ps IH]; simpl.
  - now repeat constructor.
  - inversion H; subst. destruct (String.eqb k k'); constructor; auto.
Qed.

Lemma all_usable_elt (k : string) (ps : props) :
  all_usable ps -> where_usable (elt k ps) = true.
Proof.
  unfold all_usable, elt. intros H.
  destruct (lookup k ps) as [e|] eqn:E; [|reflexivity].
  rewrite Forall_forall in H. exact (H _ (lookup_In _ _ _ _ E)).
Qed.

Lemma entry_rewrite_returns (e : value) :
  where_usable e = true ->
  exists r, entry_rewrite e = Ok r /\
            forall e', r = Some e' -> where_usable e' = true.
Proof.
  intros Hu. destruct e as [| |[|]|n|s|ce es]; simpl in *;
    try (exists None; split; [reflexivity | discriminate]).
  - eexists. split; [reflexivity|]. now intros e' [= <-].
  - unfold has_key. destruct (lookup "where" es) as [w|] eqn:Hw; simpl.
    + destruct w as [| |b|n|s|cw ws]; simpl in *; try discriminate;
        try (eexists; split; [reflexivity|]; intros e' [= <-]; simpl;
             now rewrite lookup_set_key_same).
      * destruct (has_key "isDeleted" (chars_from 0 s)).
        -- exists None. split; [reflexivity | discriminate].
        -- eexists. split; [reflexivity|]. intros e' [= <-]. simpl.
           now rewrite lookup_set_key_same.
      * destruct (has_key "isDeleted" ws).
        -- exists None. split; [reflexivity | discriminate].
        -- eexists. split; [reflexivity|]. intros e' [= <-]. simpl.
           now rewrite lookup_set_key_same.
    + eexists. split; [reflexivity|]. intros e' [= <-]. simpl.
      now rewrite lookup_set_key_same.
Qed.

Lemma entry_step_returns (ps : props) (k : string) :
  all_usable ps -> exists ps', entry_step ps k = Ok ps' /\ all_usable ps'.
Proof.
  intros Hu. unfold entry_step.
  destruct (has_key k ps); [|now exists ps].
  destruct (Part000.in_skipList k); [now exists ps|].
  destruct (entry_rewrite_returns _ (all_usable_elt k ps Hu))
    as (r & -> & Hr). simpl.
  destruct r as [e'|]; eexists; split; try reflexivity; [|exact Hu].
  apply all_usable_set_key; auto.
Qed.

Lemma entry_loop_returns (ks : list string) (ps : props) :
  all_usable ps -> exists ps', for_of entry_step ks ps = Ok ps'.
Proof.
  revert ps. induction ks as [|k ks IH]; intros ps Hu; simpl.
  - now exists ps.
  - destruct (entry_step_returns ps k Hu) as (ps1 & -> & Hu1). simpl.
    now apply IH.
Qed.

(** The interceptor returns on an argument object whose included relations
    are usable. *)
Lemma include_stage_returns (p : params) (c : objclass) (ps : props) :
  args p = VObj c ps ->
  (forall ci es, lookup "include" ps = Some (VObj ci es) -> all_usable es) ->
  exists p', Part000.include_stage p = Ok p'.
Proof.
  intros Ha Hu. unfold Part000.include_stage. rewrite Ha. simpl.
  destruct (lookup "include" ps) as [inc|] eqn:Hinc; [|now exists p].
  destruct (truthy inc); [|now exists p].
  destruct inc as [| |b|n|s|ci es];
    try (rewrite include_loop_primitive by (intros; discriminate);
         simpl; eexists; reflexivity).
  simpl. rewrite include_loop_step.
  destruct (entry_loop_returns (keys es) es (Hu ci es eq_refl)) as (es' & ->).
  simpl. eexists; reflexivity.
Qed.

(** [params.args.where[f]] *)
Definition where_field (f : string) (p : params) : result value :=
  where_ <- get_prop (args p) "where" ;;
  get_prop where_ f.

Lemma part000_findMany_explicit m c ps w d :
  lookup "where" ps = Some w ->
  get_prop w "isDeleted" = Ok d ->
  d <> VUndefined ->
  Part000.lookup_stage (mkParams m "findMany" (VObj c ps)) =
  Ok (mkParams m "findMany" (VObj c ps)).
Proof.
  intros Hw Hd Hne. unfold Part000.lookup_stage. simpl.
  destruct (Part000.model_skipped m); [reflexivity|].
  unfold Part000.findMany_block. simpl. rewrite Hw.
  assert (Hu : is_undefined w = false) by (destruct w; simpl in *; congruence).
  rewrite Hu. simpl. rewrite Hd. simpl.
  assert (Hud : is_undefined d = false) by (destruct d; simpl; congruence).
  now rewrite Hud.
Qed.

Lemma get_prop_null (w : value) (f : string) :
  get_prop w f = Ok VNull ->
  exists cw ws, w = VObj cw ws /\ lookup f ws = Some VNull.
Proof.
  destruct w as [| |b|n|s|cw ws]; simpl; try discriminate.
  - destruct (lookup f (chars_from 0 s)) as [v|] eqn:E; [|discriminate].
    destruct (chars_from_values _ _ _ _ E) as [ch ->]. discriminate.
  - destruct (lookup f ws) as [v|] eqn:E; [|discriminate].
    intros [= ->]. eauto.
Qed.

Lemma middleware_findMany_explicit m c ps w d :
  lookup "where" ps = Some w ->
  get_prop w "deletedAt" = Ok d ->
  d <> VUndefined ->
  Middleware.lookup_stage (mkParams m "findMany" (VObj c ps)) =
  Ok (mkParams m "findMany" (VObj c ps)).
Proof.
  intros Hw Hd Hne. unfold Middleware.lookup_stage. simpl.
  unfold Middleware.findMany_block. simpl. rewrite Hw.
  assert (Hu : is_nullish w = false) by (destruct w; simpl in *; congruence).
  rewrite Hu. simpl. rewrite Hd. simpl.
  destruct (is_nullish d) eqn:Hn; [|reflexivity].
  assert (d = VNull) as -> by (destruct d; simpl in *; congruence).
  destruct (get_prop_null _ _ Hd) as (cw & ws & -> & Hl). simpl.
  unfold with_args. simpl.
  now rewrite (set_key_lookup_id _ _ _ Hl), (set_key_lookup_id _ _ _ Hw).
Qed.

Lemma bind_Ok_r (A : Type) (r : result A) : (x <- r ;; Ok x) = r.
Proof. now destruct r. Qed.

Lemma part000_findUnique_sets_clause (p p' : params) :
  action p = "findUnique" ->
  Part000.model_skipped (model p) = false ->
  Part000.lookup_stage p = Ok p' ->
  action p' = "findFirst" /\ where_field "isDeleted" p' = Ok (VBool false).
Proof.
  intros Ha Hm H. unfold Part000.lookup_stage in H. rewrite Hm, Ha in H.
  simpl in H. unfold Part000.findUnique_block in H. simpl in H.
  destruct (get_prop (args p) "where") as [w|]; simpl in H; [|discriminate].
  destruct (args p) as [| |b|n|s|c ps]; simpl in H; try discriminate.
  destruct (object_entries w) as [ents|]; simpl in H; [|discriminate].
  destruct (for_of hoist_entry ents []) as [w'|]; simpl in H; [|discriminate].
  injection H as <-. split; [reflexivity|].
  unfold where_field. simpl.
  now rewrite lookup_set_key_same; simpl; rewrite lookup_set_key_same.
Qed.

Lemma middleware_findUnique_sets_clause (p p' : params) :
  action p = "findUnique" ->
  Middleware.lookup_stage p = Ok p' ->
  action p' = "findFirst" /\ where_field "deletedAt" p' = Ok VNull.
Proof.
  intros Ha H. unfold Middleware.lookup_stage in H. rewrite Ha in H.
  simpl in H. unfold Middleware.findUnique_block in H. simpl in H.
  destruct (get_prop (args p) "where") as [w|]; simpl in H; [|discriminate].
  destruct (args p) as [| |b|n|s|c ps]; simpl in H; try discriminate.
  destruct (object_entries w) as [ents|]; simpl in H; [|discriminate].
  destruct (for_of hoist_entry ents []) as [w'|]; simpl in H; [|discriminate].
  injection H as <-. split; [reflexivity|].
  unfold where_field. simpl.
  now rewrite lookup_set_key_same; simpl; rewrite lookup_set_key_same.
Qed.

Definition unique_lookup_of_deleted : params :=
  mkParams (Some "Order") "findUnique"
    (VObj Plain [("where", VObj Plain [("id", VStr "A");
                                       ("isDeleted", VBool true)])]).

Definition unique_lookup_deleted_at : params :=
  mkParams (Some "Order") "findUnique"
    (VObj Plain [("where", VObj Plain [("id", VStr "A");
                                       ("deletedAt", new_Date 5)])]).

(** C4, as stated, fails for unique lookups: a [findUnique] whose [where]
    sets the tombstone field explicitly leaves the lookup interceptor with
    that field overwritten by the not-tombstoned value. *)
Lemma findUnique_overwrites_explicit_filter :
  (where_field "isDeleted" unique_lookup_of_deleted = Ok (VBool true) /\
   exists p',
     Part000.lookup_stage unique_lookup_of_deleted = Ok p' /\
     where_field "isDeleted" p' = Ok (VBool false))
  /\
  (where_field "deletedAt" unique_lookup_deleted_at = Ok (new_Date 5) /\
   exists p',
     Middleware.lookup_stage unique_lookup_deleted_at = Ok p' /\
     where_field "deletedAt" p' = Ok VNull).
Proof.
  split; (split; [reflexivity|]); eexists; split; reflexivity.
Qed.

Lemma part000_delete_stage_findMany (now : Z) (p : params) :
  action p = "findMany" -> Part000.delete_stage now p = Ok p.
Proof.
  intros Ha. unfold Part000.delete_stage.
  destruct (Part000.model_skipped (model p)); [reflexivity|].
  rewrite Ha. simpl. now rewrite Ha.
Qed.

Lemma middleware_later_stages_findMany (t_upd t_del : Z) (p : params) :
  action p = "findMany" ->
  Middleware.update_stage t_upd p = Ok p /\
  Middleware.delete_stage t_del p = Ok p.
Proof.
  intros Ha. unfold Middleware.update_stage, Middleware.delete_stage.
  rewrite Ha. simpl. now rewrite Ha.
Qed.

(** C4, amended.  A [findMany] whose [where] sets the tombstone field to
    anything but [undefined] leaves the lookup interceptor of either variant
    unchanged, and reaches the end of the chain with that value; an included
    relation whose [where] has the tombstone field as an own key leaves the
    relation-inclusion interceptor as it came, and that interceptor returns
    whenever no included object has a [null] or [undefined] [where].  A
    [findUnique] is different: the lookup interceptor always forwards it with
    the tombstone field of [where] set to the not-tombstoned value. *)
Theorem explicit_tombstone_filter_kept :
  (forall m c ps w d,
     lookup "where" ps = Some w ->
     get_prop w "isDeleted" = Ok d ->
     d <> VUndefined ->
     Part000.lookup_stage (mkParams m "findMany" (VObj c ps)) =
       Ok (mkParams m "findMany" (VObj c ps)) /\
     forall now p',
       Part000.applyMiddleware now (mkParams m "findMany" (VObj c ps))
         = Ok p' ->
       where_field "isDeleted" p' = Ok d)
  /\
  (forall m c ps w d,
     lookup "where" ps = Some w ->
     get_prop w "deletedAt" = Ok d ->
     d <> VUndefined ->
     Middleware.lookup_stage (mkParams m "findMany" (VObj c ps)) =
       Ok (mkParams m "findMany" (VObj c ps)) /\
     forall t_upd t_del,
       Middleware.applyMiddleware t_upd t_del
         (mkParams m "findMany" (VObj c ps)) =
       Ok (mkParams m "findMany" (VObj c ps)))
  /\
  (forall p p' c ps inc k e w,
     args p = VObj c ps ->
     lookup "include" ps = Some inc ->
     lookup k (own_entries inc) = Some e ->
     get_prop e "where" = Ok w ->
     has_own_property w "isDeleted" = Ok true ->
     Part000.include_stage p = Ok p' ->
     exists inc', get_prop (args p') "include" = Ok inc' /\
                  lookup k (own_entries inc') = Some e)
  /\
  (forall p c ps,
     args p = VObj c ps ->
     (forall ci es, lookup "include" ps = Some (VObj ci es) ->
                    Forall (fun kv => where_usable (snd kv) = true) es) ->
     exists p', Part000.include_stage p = Ok p')
  /\
  (forall p p',
     action p = "findUnique" ->
     Part000.model_skipped (model p) = false ->
     Part000.lookup_stage p = Ok p' ->
     where_field "isDeleted" p' = Ok (VBool false))
  /\
  (forall p p',
     action p = "findUnique" ->
     Middleware.lookup_stage p = Ok p' ->
     where_field "deletedAt" p' = Ok VNull).
Proof.
  split; [|split; [|split; [|split; [|split]]]].
  - intros m c ps w d Hw Hd Hne.
    pose proof (part000_findMany_explicit m c ps w d Hw Hd Hne) as Hl.
    split; [exact Hl|].
    intros now p' H. unfold Part000.applyMiddleware in H.
    rewrite Hl in H. simpl in H.
    rewrite part000_delete_stage_findMany in H by reflexivity. simpl in H.
    destruct (include_stage_frame _ _ H) as (_ & _ & Hf).
    unfold where_field. rewrite Hf by discriminate. simpl.
    now rewrite Hw.
  - intros m c ps w d Hw Hd Hne.
    pose proof (middleware_findMany_explicit m c ps w d Hw Hd Hne) as Hl.
    split; [exact Hl|].
    intros t_upd t_del. unfold Middleware.applyMiddleware.
    rewrite Hl. reflexivity.
  - intros p p' c ps inc k e w. apply include_stage_keeps_explicit.
  - intros p c ps. apply include_stage_returns.
  - intros p p' Ha Hm H.
    now destruct (part000_findUnique_sets_clause p p' Ha Hm H).
  - intros p p' Ha H.
    now destruct (middleware_findUnique_sets_clause p p' Ha H).
Qed.

Lemma explicit_tombstone_filter_kept_witness :
  Part000.lookup_stage
    (mkParams (Some "Order") "findMany"
       (VObj Plain [("where", VObj Plain [("isDeleted", VBool true)])])) =
  Ok (mkParams (Some "Order") "findMany"
        (VObj Plain [("where", VObj Plain [("isDeleted", VBool true)])])).
Proof.
  apply (proj1 (proj1 explicit_tombstone_filter_kept
                  (Some "Order") Plain
                  [("where", VObj Plain [("isDeleted", VBool true)])]
                  (VObj Plain [("isDeleted", VBool true)]) (VBool true)
                  eq_refl eq_refl ltac:(discriminate))).
Defined.

(** ** Running the chain again on a rewritten [findMany] *)

Lemma ensure_args_truthy (p : params) : truthy (args (ensure_args p)) = true.
Proof.
  unfold ensure_args. destruct (truthy (args p)) eqn:E; simpl; auto.
Qed.

Lemma ensure_args_fixed (p : params) :
  truthy (args p) = true -> ensure_args p = p.
Proof. intros H. unfold ensure_args. now rewrite H. Qed.

(** The not-tombstoned clause is in place: [args.where.isDeleted] is
    defined. *)
Definition filtered (q : params) : Prop :=
  truthy (args q) = true /\
  exists w d,
    get_prop (args q) "where" = Ok w /\ is_undefined w = false /\
    get_prop w "isDeleted" = Ok d /\ is_undefined d = false.

Lemma part000_findMany_block_filters (p q : params) :
  Part000.findMany_block p = Ok q ->
  filtered q /\ model q = model p /\ action q = action p.
Proof.
  unfold Part000.findMany_block. intros H.
  pose proof (ensure_args_truthy p) as Ht.
  assert (Hma : model (ensure_args p) = model p /\
                action (ensure_args p) = action p).
  { unfold ensure_args. now destruct (negb (truthy (args p))). }
  destruct Hma as [Hm Ha]. rewrite <- Hm, <- Ha.
  set (p0 := ensure_args p) in *. clearbody p0.
  destruct (get_prop (args p0) "where") as [w|] eqn:Hw; simpl in H;
    [|discriminate].
  destruct (is_undefined w) eqn:Hu; simpl in H.
  - destruct (args p0) as [| |b|n|s|c aps] eqn:Hargs; simpl in H;
      try discriminate.
    injection H as <-. split; [|now split].
    split; [reflexivity|].
    exists (VObj Plain [("isDeleted", VBool false)]), (VBool false). simpl.
    now rewrite lookup_set_key_same.
  - destruct (get_prop w "isDeleted") as [d|] eqn:Hd; simpl in H;
      [|discriminate].
    destruct (is_undefined d) eqn:Hud.
    + destruct w as [| |b|n|s|cw ws]; simpl in H; try discriminate.
      destruct (args p0) as [| |b|n|s|c aps] eqn:Hargs; simpl in H;
        try discriminate.
      injection H as <-. split; [|now split].
      split; [reflexivity|].
      exists (VObj cw (set_key "isDeleted" (VBool false) ws)), (VBool false).
      simpl. now rewrite !lookup_set_key_same.
    + injection H as <-. split; [|now split].
      split; [exact Ht|]. exists w, d. now repeat split.
Qed.

Lemma part000_findMany_block_filtered (q : params) :
  filtered q -> Part000.findMany_block q = Ok q.
Proof.
  intros (Ht & w & d & Hw & Hu & Hd & Hud).
  unfold Part000.findMany_block. rewrite (ensure_args_fixed _ Ht).
  rewrite Hw. simpl. rewrite Hu. simpl. rewrite Hd. simpl. now rewrite Hud.
Qed.

Lemma include_stage_keeps_filtered (q p1 : params) :
  filtered q -> Part000.include_stage q = Ok p1 -> filtered p1.
Proof.
  intros (Ht & w & d & Hw & Hu & Hd & Hud) H.
  destruct (include_stage_frame _ _ H) as (_ & _ & Hf).
  split.
  - unfold Part000.include_stage in H.
    destruct (get_prop (args q) "include") as [inc|]; simpl in H;
      [|discriminate].
    destruct (truthy inc); [|now injection H as <-].
    destruct (for_of Part000.include_entry (keys (own_entries inc)) inc);
      simpl in H; [|discriminate].
    destruct (args q); simpl in H; try discriminate.
    now injection H as <-.
  - exists w, d. rewrite Hf by discriminate. now repeat split.
Qed.

Lemma part000_lookup_stage_findMany (p : params) :
  action p = "findMany" ->
  Part000.lookup_stage p =
  if Part000.model_skipped (model p) then Ok p
  else Part000.findMany_block p.
Proof.
  intros Ha. unfold Part000.lookup_stage.
  destruct (Part000.model_skipped (model p)); [reflexivity|].
  rewrite Ha. simpl. rewrite Ha. simpl. apply bind_Ok_r.
Qed.

Lemma part000_chain_idempotent (now now' : Z) (p p1 : params) :
  action p = "findMany" ->
  Part000.applyMiddleware now p = Ok p1 ->
  Part000.applyMiddleware now' p1 = Ok p1 /\
  (Part000.model_skipped (model p) = false -> filtered p1).
Proof.
  intros Ha H. unfold Part000.applyMiddleware in H.
  rewrite part000_lookup_stage_findMany in H by exact Ha.
  destruct (Part000.model_skipped (model p)) eqn:Hm; simpl in H.
  - rewrite part000_delete_stage_findMany in H by exact Ha. simpl in H.
    destruct (include_stage_frame _ _ H) as (Hm1 & Ha1 & _).
    split; [|discriminate].
    unfold Part000.applyMiddleware.
    rewrite part000_lookup_stage_findMany by congruence.
    rewrite Hm1, Hm. simpl.
    rewrite part000_delete_stage_findMany by congruence. simpl.
    eapply include_stage_idempotent; eassumption.
  - destruct (Part000.findMany_block p) as [q|] eqn:Hq; simpl in H;
      [|discriminate].
    destruct (part000_findMany_block_filters _ _ Hq) as (Hfq & Hmq & Haq).
    rewrite part000_delete_stage_findMany in H by congruence. simpl in H.
    destruct (include_stage_frame _ _ H) as (Hm1 & Ha1 & _).
    pose proof (include_stage_keeps_filtered _ _ Hfq H) as Hf1.
    split; [|intros _; exact Hf1].
    unfold Part000.applyMiddleware.
    rewrite part000_lookup_stage_findMany by congruence.
    replace (Part000.model_skipped (model p1)) with false by congruence.
    rewrite (part000_findMany_block_filtered _ Hf1). simpl.
    rewrite part000_delete_stage_findMany by congruence. simpl.
    eapply include_stage_idempotent; eassumption.
Qed.

Lemma middleware_findMany_block_idempotent (p q : params) :
  Middleware.findMany_block p = Ok q ->
  Middleware.findMany_block q = Ok q /\ action q = action p /\
  exists d, where_field "deletedAt" q = Ok d /\ is_undefined d = false.
Proof.
  unfold Middleware.findMany_block at 1. intros H.
  pose proof (ensure_args_truthy p) as Ht.
  assert (Ha : action (ensure_args p) = action p).
  { unfold ensure_args. now destruct (negb (truthy (args p))). }
  rewrite <- Ha.
  set (p0 := ensure_args p) in *. clearbody p0.
  destruct (get_prop (args p0) "where") as [w|] eqn:Hw; simpl in H;
    [|discriminate].
  destruct (is_nullish w) eqn:Hu; simpl in H.
  - destruct (args p0) as [| |b|n|s|c aps] eqn:Hargs; simpl in H;
      try discriminate.
    injection H as <-. split; [|split; [reflexivity|]].
    + unfold Middleware.findMany_block, ensure_args, with_args. simpl.
      rewrite lookup_set_key_same. simpl.
      now rewrite set_key_set_key.
    + exists VNull. unfold where_field. simpl.
      now rewrite lookup_set_key_same.
  - destruct (get_prop w "deletedAt") as [d|] eqn:Hd; simpl in H;
      [|discriminate].
    destruct (is_nullish d) eqn:Hud.
    + destruct w as [| |b|n|s|cw ws]; simpl in H; try discriminate.
      destruct (args p0) as [| |b|n|s|c aps] eqn:Hargs; simpl in H;
        try discriminate.
      injection H as <-. split; [|split; [reflexivity|]].
      * unfold Middleware.findMany_block, ensure_args, with_args. simpl.
        rewrite lookup_set_key_same. simpl.
        rewrite lookup_set_key_same. simpl.
        now rewrite !set_key_set_key.
      * exists VNull. unfold where_field. simpl.
        now rewrite !lookup_set_key_same; simpl; rewrite lookup_set_key_same.
    + injection H as <-. split; [|split; [reflexivity|]].
      * unfold Middleware.findMany_block.
        rewrite (ensure_args_fixed _ Ht), Hw. simpl. rewrite Hu. simpl.
        rewrite Hd. simpl. now rewrite Hud.
      * exists d. unfold where_field. rewrite Hw. simpl.
        split; [exact Hd|]. destruct d; simpl in *; congruence.
Qed.

Lemma middleware_chain_findMany (t_upd t_del : Z) (p : params) :
  action p = "findMany" ->
  Middleware.applyMiddleware t_upd t_del p = Middleware.findMany_block p.
Proof.
  intros Ha. unfold Middleware.applyMiddleware, Middleware.lookup_stage.
  rewrite Ha. simpl. rewrite Ha. simpl. rewrite bind_Ok_r.
  destruct (Middleware.findMany_block p) as [q|] eqn:Hq; [|reflexivity].
  simpl.
  destruct (middleware_findMany_block_idempotent _ _ Hq) as (_ & Haq & _).
  destruct (middleware_later_stages_findMany t_upd t_del q) as [-> H2];
    [congruence|].
  exact H2.
Qed.

(** C7.  When the chain of either variant has rewritten a [findMany]
    descriptor, running the chain on the result returns that result
    unchanged, whatever the clock; and the result does carry the tombstone
    clause in [where] (for the variant with a skip list, when the model is
    not on it). *)
Theorem chain_twice_on_findMany :
  (forall now now' p p1,
     action p = "findMany" ->
     Part000.applyMiddleware now p = Ok p1 ->
     Part000.applyMiddleware now' p1 = Ok p1 /\
     (Part000.model_skipped (model p) = false ->
      exists d, where_field "isDeleted" p1 = Ok d /\ d <> VUndefined))
  /\
  (forall t_upd t_del t_upd' t_del' p p1,
     action p = "findMany" ->
     Middleware.applyMiddleware t_upd t_del p = Ok p1 ->
     Middleware.applyMiddleware t_upd' t_del' p1 = Ok p1 /\
     exists d, where_field "deletedAt" p1 = Ok d /\ d <> VUndefined).
Proof.
  split.
  - intros now now' p p1 Ha H.
    destruct (part000_chain_idempotent now now' p p1 Ha H) as [H1 H2].
    split; [exact H1|].
    intros Hm. destruct (H2 Hm) as (_ & w & d & Hw & _ & Hd & Hud).
    exists d. unfold where_field. rewrite Hw. simpl.
    split; [exact Hd|]. intros ->. discriminate.
  - intros t_upd t_del t_upd' t_del' p p1 Ha H.
    rewrite middleware_chain_findMany in H by exact Ha.
    destruct (middleware_findMany_block_idempotent _ _ H)
      as (H1 & Ha1 & d & Hd & Hud).
    split.
    + rewrite middleware_chain_findMany by congruence. exact H1.
    + exists d. split; [exact Hd|]. intros ->. discriminate.
Qed.

Lemma chain_twice_on_findMany_witness :
  Part000.applyMiddleware 2
    (mkParams (Some "Order") "findMany"
       (VObj Plain
          [("include",
            VObj Plain
              [("items",
                VObj Plain
                  [("where", VObj Plain [("isDeleted", VBool false)])])]);
           ("where", VObj Plain [("isDeleted", VBool false)])]))
  = Ok (mkParams (Some "Order") "findMany"
          (VObj Plain
             [("include",
               VObj Plain
                 [("items",
                   VObj Plain
                     [("where", VObj Plain [("isDeleted", VBool false)])])]);
              ("where", VObj Plain [("isDeleted", VBool false)])])).
Proof.
  apply (proj1 (proj1 chain_twice_on_findMany 1%Z 2%Z
                  (mkParams (Some "Order") "findMany"
                     (VObj Plain [("include",
                                   VObj Plain [("items", VBool true)])]))
                  _ eq_refl eq_refl)).
Defined.

(** ** What the relation-inclusion loop does to one entry *)

Lemma loop_rewrites (ks : list string) (ps ps' : props) (k : string)
    (r : option value) :
  for_of entry_step ks ps = Ok ps' ->
  In k ks ->
  has_key k ps = true ->
  Part000.in_skipList k = false ->
  entry_rewrite (elt k ps) = Ok r ->
  lookup k ps' = match r with Some e' => Some e' | None => lookup k ps end.
Proof.
  revert ps. induction ks as [|k0 ks IH]; intros ps H Hin Hk Hs Hr;
    [destruct Hin|].
  simpl in H.
  destruct (entry_step ps k0) as [ps1|] eqn:Hstep; simpl in H; [|discriminate].
  destruct (string_dec k0 k) as [-> | Hne].
  - pose proof (step_settles _ _ _ Hstep) as Hset.
    destruct (loop_settles _ _ _ H) as (_ & _ & Hkeep).
    destruct (Hkeep k Hset) as [_ ->].
    unfold entry_step in Hstep. rewrite Hk, Hs, Hr in Hstep. simpl in Hstep.
    injection Hstep as <-. destruct r as [e'|]; [|reflexivity].
    apply lookup_set_key_same.
  - destruct Hin as [Heq | Hin]; [congruence|].
    assert (Hl : lookup k ps1 = lookup k ps)
      by (eapply step_frame; [eassumption | congruence]).
    rewrite <- Hl. apply IH; try assumption.
    + unfold has_key in *. now rewrite Hl.
    + unfold elt in *. now rewrite Hl.
Qed.

Lemma include_stage_object (p p' : params) (c ci : objclass) (ps es : props) :
  args p = VObj c ps ->
  lookup "include" ps = Some (VObj ci es) ->
  Part000.include_stage p = Ok p' ->
  exists es',
    for_of entry_step (keys es) es = Ok es' /\
    p' = with_args p (VObj c (set_key "include" (VObj ci es') ps)).
Proof.
  intros Ha Hinc H. unfold Part000.include_stage in H.
  rewrite Ha in H. simpl in H. rewrite Hinc in H. simpl in H.
  rewrite include_loop_step in H.
  destruct (for_of entry_step (keys es) es) as [es'|]; simpl in H;
    [|discriminate].
  injection H as <-. now exists es'.
Qed.

Lemma include_stage_entry (p p' : params) (c ci : objclass) (ps es : props)
    (k : string) (e : value) (r : option value) :
  args p = VObj c ps ->
  lookup "include" ps = Some (VObj ci es) ->
  lookup k es = Some e ->
  Part000.in_skipList k = false ->
  entry_rewrite e = Ok r ->
  Part000.include_stage p = Ok p' ->
  exists es',
    get_prop (args p') "include" = Ok (VObj ci es') /\
    lookup k es' = Some (match r with Some e' => e' | None => e end).
Proof.
  intros Ha Hinc Hk Hs Hr H.
  destruct (include_stage_object _ _ _ _ _ _ Ha Hinc H) as (es' & Hloop & ->).
  exists es'. simpl. rewrite lookup_set_key_same. split; [reflexivity|].
  assert (Hhas : has_key k es = true) by (unfold has_key; now rewrite Hk).
  rewrite (loop_rewrites _ _ _ k r Hloop).
  - destruct r; [reflexivity | exact Hk].
  - now apply has_key_keys.
  - exact Hhas.
  - exact Hs.
  - unfold elt. now rewrite Hk.
Qed.

Lemma include_stage_keeps_settled (p p' : params) (c ci : objclass)
    (ps es : props) (k : string) :
  args p = VObj c ps ->
  lookup "include" ps = Some (VObj ci es) ->
  settled es k ->
  Part000.include_stage p = Ok p' ->
  exists es',
    get_prop (args p') "include" = Ok (VObj ci es') /\
    lookup k es' = lookup k es.
Proof.
  intros Ha Hinc Hs H.
  destruct (include_stage_object _ _ _ _ _ _ Ha Hinc H) as (es' & Hloop & ->).
  exists es'. simpl. rewrite lookup_set_key_same. split; [reflexivity|].
  destruct (loop_settles _ _ _ Hloop) as (_ & _ & Hkeep).
  now destruct (Hkeep k Hs).
Qed.

(** C8.  Let [include] be an object and [k] one of its keys outside the
    skip list.  Whenever the relation-inclusion interceptor returns, it has
    replaced an entry [k: true] by [{where: {isDeleted: false}}], and an
    entry [k: {...}] without an own [where] by an object with the same
    fields plus [where: {isDeleted: false}].  It returns on every argument
    object in which no included object has a [null] or [undefined]
    [where]. *)
Theorem include_entry_gets_filter
    (p : params) (c ci : objclass) (ps es : props) (k : string) :
  args p = VObj c ps ->
  lookup "include" ps = Some (VObj ci es) ->
  Part000.in_skipList k = false ->
  (forall p',
     Part000.include_stage p = Ok p' ->
     model p' = model p /\ action p' = action p /\
     exists es',
       get_prop (args p') "include" = Ok (VObj ci es') /\
       (lookup k es = Some (VBool true) ->
        lookup k es' =
          Some (VObj Plain
                  [("where", VObj Plain [("isDeleted", VBool false)])])) /\
       (forall ce fs,
          lookup k es = Some (VObj ce fs) ->
          lookup "where" fs = None ->
          exists fs',
            lookup k es' = Some (VObj Plain fs') /\
            lookup "where" fs' =
              Some (VObj Plain [("isDeleted", VBool false)]) /\
            forall f, f <> "where" -> lookup f fs' = lookup f fs))
  /\
  (Forall (fun kv => where_usable (snd kv) = true) es ->
   exists p', Part000.include_stage p = Ok p').
Proof.
  intros Ha Hinc Hs. split.
  - intros p' H.
    destruct (include_stage_frame _ _ H) as (Hm & Hact & _).
    split; [exact Hm|]. split; [exact Hact|].
    destruct (include_stage_object _ _ _ _ _ _ Ha Hinc H) as (es' & _ & Hp').
    exists es'. split; [|split].
    + rewrite Hp'. simpl. now rewrite lookup_set_key_same.
    + intros Hk.
      destruct (include_stage_entry _ _ _ _ _ _ k _ _ Ha Hinc Hk Hs
                  (eq_refl : entry_rewrite (VBool true) = Ok _) H)
        as (es2 & Hg & Hl).
      rewrite Hp' in Hg. simpl in Hg. rewrite lookup_set_key_same in Hg.
      injection Hg as <-. exact Hl.
    + intros ce fs Hk Hw.
      assert (Hr : entry_rewrite (VObj ce fs) =
                   Ok (Some (VObj Plain
                               (set_key "where" Part000.not_deleted fs)))).
      { simpl. unfold has_key. now rewrite Hw. }
      destruct (include_stage_entry _ _ _ _ _ _ k _ _ Ha Hinc Hk Hs Hr H)
        as (es2 & Hg & Hl).
      rewrite Hp' in Hg. simpl in Hg. rewrite lookup_set_key_same in Hg.
      injection Hg as <-. eexists. split; [exact Hl|]. split.
      * apply lookup_set_key_same.
      * intros f Hf. now apply lookup_set_key_other.
  - intros Hu. apply (include_stage_returns p c ps Ha).
    intros ci' es0 Hinc'. rewrite Hinc in Hinc'. now injection Hinc' as _ <-.
Qed.

Definition order_with_items : params :=
  mkParams (Some "Order") "findMany"
    (VObj Plain
       [("include",
         VObj Plain
           [("items", VBool true);
            ("customer",
             VObj Plain [("select", VObj Plain [("name", VBool true)])]);
            ("coupon", VBool false); ("notes", VNull)])]).

Lemma include_entry_gets_filter_witness :
  exists p' es',
    Part000.include_stage order_with_items = Ok p' /\
    get_prop (args p') "include" = Ok (VObj Plain es') /\
    lookup "items" es' =
      Some (VObj Plain [("where", VObj Plain [("isDeleted", VBool false)])]).
Proof.
  destruct (include_entry_gets_filter order_with_items Plain Plain _ _
              "items" eq_refl eq_refl eq_refl) as [Hright Hreturns].
  destruct Hreturns as [p' Hp']; [repeat constructor|].
  destruct (Hright p' Hp') as (_ & _ & es' & Hg & Htrue & _).
  exists p', es'. split; [exact Hp'|]. split; [exact Hg|].
  apply Htrue. reflexivity.
Defined.

(** C10.  Let [include] be an object.  Whenever the relation-inclusion
    interceptor returns, every entry of [include] whose value is falsy
    ([false], [null], [undefined], and also [0] and the empty string) is
    still there with the value the caller gave; and it returns on every
    argument object in which no included object has a [null] or [undefined]
    [where]. *)
Theorem include_falsy_entry_unchanged
    (p : params) (c ci : objclass) (ps es : props) :
  args p = VObj c ps ->
  lookup "include" ps = Some (VObj ci es) ->
  (forall p',
     Part000.include_stage p = Ok p' ->
     exists es',
       get_prop (args p') "include" = Ok (VObj ci es') /\
       keys es' = keys es /\
       forall k e, lookup k es = Some e -> truthy e = false ->
                   lookup k es' = Some e)
  /\
  (Forall (fun kv => where_usable (snd kv) = true) es ->
   exists p', Part000.include_stage p = Ok p').
Proof.
  intros Ha Hinc. split.
  - intros p' H.
    destruct (include_stage_object _ _ _ _ _ _ Ha Hinc H)
      as (es' & Hloop & Hp').
    exists es'. split; [|split].
    + rewrite Hp'. simpl. now rewrite lookup_set_key_same.
    + now destruct (loop_settles _ _ _ Hloop).
    + intros k e Hk Hf.
      destruct (loop_settles _ _ _ Hloop) as (_ & _ & Hkeep).
      destruct (Hkeep k) as [_ ->]; [|exact Hk].
      right. right. unfold elt. rewrite Hk.
      destruct e as [| |[|]|n|s|ce fs]; simpl in *; congruence.
  - intros Hu. apply (include_stage_returns p c ps Ha).
    intros ci' es0 Hinc'. rewrite Hinc in Hinc'. now injection Hinc' as _ <-.
Qed.

Lemma include_falsy_entry_unchanged_witness :
  exists p' es',
    Part000.include_stage order_with_items = Ok p' /\
    get_prop (args p') "include" = Ok (VObj Plain es') /\
    lookup "coupon" es' = Some (VBool false) /\
    lookup "notes" es' = Some VNull.
Proof.
  destruct (include_falsy_entry_unchanged order_with_items Plain Plain _ _
              eq_refl eq_refl) as [Hright Hreturns].
  destruct Hreturns as [p' Hp']; [repeat constructor|].
  destruct (Hright p' Hp') as (es' & Hg & _ & Hkeep).
  exists p', es'. split; [exact Hp'|]. split; [exact Hg|].
  split; apply Hkeep; reflexivity.
Defined.

(** ** Updates are stamped with [updatedAt] *)

Lemma middleware_update_stage_other (now : Z) (p : params) :
  action p <> "update" -> action p <> "updateMany" ->
  Middleware.update_stage now p = Ok p.
Proof.
  intros H1 H2. unfold Middleware.update_stage.
  apply String.eqb_neq in H1, H2. now rewrite H1, H2.
Qed.

Lemma middleware_update_stage_stamps (now : Z) (m : option string)
    (a : string) (c : objclass) (ps : props) :
  a = "update" \/ a = "updateMany" ->
  Middleware.update_stage now (mkParams m a (VObj c ps)) =
  match lookup "data" ps with
  | Some (VObj cd ds) =>
      Ok (mkParams m a
            (VObj c (set_key "data"
                       (VObj cd (set_key "updatedAt" (new_Date now) ds)) ps)))
  | Some data =>
      if truthy data then TypeError
      else Ok (mkParams m a
                 (VObj c (set_key "data"
                            (VObj Plain [("updatedAt", new_Date now)]) ps)))
  | None =>
      Ok (mkParams m a
            (VObj c (set_key "data"
                       (VObj Plain [("updatedAt", new_Date now)]) ps)))
  end.
Proof.
  intros Ha. unfold Middleware.update_stage. simpl.
  assert (Hact : (String.eqb a "updateMany" || String.eqb a "update") = true).
  { destruct Ha as [-> | ->]; reflexivity. }
  rewrite Hact. unfold ensure_args, with_args. simpl.
  destruct (lookup "data" ps) as [data|] eqn:Hd; simpl.
  - destruct data as [| |[|]|n|s|cd ds]; simpl;
      rewrite ?lookup_set_key_same; simpl; rewrite ?set_key_set_key;
      try reflexivity.
    + now rewrite Hd.
    + destruct (n =? 0)%Z; simpl; rewrite ?Hd, ?lookup_set_key_same; simpl;
        rewrite ?set_key_set_key; reflexivity.
    + destruct (s =? ""); simpl; rewrite ?Hd, ?lookup_set_key_same; simpl;
        rewrite ?set_key_set_key; reflexivity.
    + now rewrite Hd.
  - rewrite lookup_set_key_same. simpl. now rewrite set_key_set_key.
Qed.

(** C9.  The second interceptor of [src/middleware.ts] (the variant with
    the stamping enabled), given an [update] or [updateMany]: without
    arguments it forwards the arguments [{data: {updatedAt: now}}]; on an
    argument object without [data] (or with a falsy one) it stores
    [{updatedAt: now}] under [data]; on an argument object whose [data] is
    an object it sets [updatedAt] in it, every other field of [data] and
    every other argument staying as it was.  Any other action is forwarded
    unchanged. *)
Theorem update_stamps_updatedAt
    (now : Z) (m : option string) (a : string) :
  (a = "update" \/ a = "updateMany" ->
   (forall args0,
      truthy args0 = false ->
      Middleware.update_stage now (mkParams m a args0) =
      Ok (mkParams m a
            (VObj Plain [("data", VObj Plain [("updatedAt", new_Date now)])])))
   /\
   (forall c ps,
      truthy (elt "data" ps) = false ->
      Middleware.update_stage now (mkParams m a (VObj c ps)) =
      Ok (mkParams m a
            (VObj c (set_key "data"
                       (VObj Plain [("updatedAt", new_Date now)]) ps))))
   /\
   (forall c ps cd ds,
      lookup "data" ps = Some (VObj cd ds) ->
      exists ds',
        Middleware.update_stage now (mkParams m a (VObj c ps)) =
          Ok (mkParams m a (VObj c (set_key "data" (VObj cd ds') ps))) /\
        lookup "updatedAt" ds' = Some (new_Date now) /\
        forall k, k <> "updatedAt" -> lookup k ds' = lookup k ds))
  /\
  (a <> "update" -> a <> "updateMany" ->
   forall args0,
     Middleware.update_stage now (mkParams m a args0) =
     Ok (mkParams m a args0)).
Proof.
  split.
  - intros Ha. split; [|split].
    + intros args0 Hf.
      assert (He : ensure_args (mkParams m a args0) =
                   mkParams m a (VObj Plain [])).
      { unfold ensure_args, with_args. simpl. now rewrite Hf. }
      transitivity (Middleware.update_stage now (mkParams m a (VObj Plain []))).
      * unfold Middleware.update_stage. simpl. rewrite He.
        destruct (String.eqb a "updateMany" || String.eqb a "update") eqn:E;
          [reflexivity|].
        destruct Ha as [-> | ->]; simpl in E; discriminate E.
      * now rewrite middleware_update_stage_stamps.
    + intros c ps Hf. rewrite middleware_update_stage_stamps by exact Ha.
      unfold elt in Hf.
      destruct (lookup "data" ps) as [data|]; [|reflexivity].
      rewrite Hf. destruct data; try reflexivity. simpl in Hf. discriminate Hf.
    + intros c ps cd ds Hd. eexists. split; [|split].
      * rewrite middleware_update_stage_stamps by exact Ha.
        rewrite Hd. reflexivity.
      * apply lookup_set_key_same.
      * intros k Hk. now apply lookup_set_key_other.
  - intros H1 H2 args0. now apply middleware_update_stage_other.
Qed.

Lemma update_stamps_updatedAt_witness :
  exists ds',
    Middleware.update_stage 1700000000000
      (mkParams (Some "Post") "update"
         (VObj Plain [("where", VObj Plain [("id", VNum 7)]);
                      ("data", VObj Plain [("title", VStr "t")])])) =
    Ok (mkParams (Some "Post") "update"
          (VObj Plain
             (set_key "data" (VObj Plain ds')
                [("where", VObj Plain [("id", VNum 7)]);
                 ("data", VObj Plain [("title", VStr "t")])]))) /\
    lookup "updatedAt" ds' = Some (new_Date 1700000000000) /\
    forall k, k <> "updatedAt" -> lookup k ds' = lookup k [("title", VStr "t")].
Proof.
  apply (proj2 (proj2 (proj1 (update_stamps_updatedAt 1700000000000
                                (Some "Post") "update")
                         (or_introl eq_refl)))
           Plain [("where", VObj Plain [("id", VNum 7)]);
                  ("data", VObj Plain [("title", VStr "t")])]
           Plain [("title", VStr "t")] eq_refl).
Defined.

(** ** The scenarios of the specification, through the whole chain *)

Example scenario_read_one :
  Part000.applyMiddleware 0
    (mkParams (Some "Order") "findUnique"
       (VObj Plain [("where", VObj Plain [("id", VStr "A")])])) =
  Ok (mkParams (Some "Order") "findFirst"
        (VObj Plain [("where", VObj Plain [("id", VStr "A");
                                           ("isDeleted", VBool false)])])).
Proof. reflexivity. Qed.

Example scenario_delete_many :
  Part000.applyMiddleware 1700000000000
    (mkParams (Some "Order") "deleteMany"
       (VObj Plain [("where", VObj Plain [("status", VStr "X")])])) =
  Ok (mkParams (Some "Order") "updateMany"
        (VObj Plain
           [("where", VObj Plain [("status", VStr "X")]);
            ("data", VObj Plain [("isDeleted", VBool true);
                                 ("deletedAt", new_Date 1700000000000)])])).
Proof. reflexivity. Qed.

Example scenario_include :
  Part000.applyMiddleware 0
    (mkParams (Some "Order") "findMany"
       (VObj Plain [("include", VObj Plain [("items", VBool true)])])) =
  Ok (mkParams (Some "Order") "findMany"
        (VObj Plain
           [("include",
             VObj Plain
               [("items",
                 VObj Plain
                   [("where", VObj Plain [("isDeleted", VBool false)])])]);
            ("where", VObj Plain [("isDeleted", VBool false)])])).
Proof. reflexivity. Qed.

Example scenario_soft_delete_not_stamped :
  Middleware.applyMiddleware 1 2
    (mkParams (Some "Post") "delete"
       (VObj Plain [("where", VObj Plain [("id", VNum 2)])])) =
  Ok (mkParams (Some "Post") "update"
        (VObj Plain [("where", VObj Plain [("id", VNum 2)]);
                     ("data", VObj Plain [("deletedAt", new_Date 2)])])).
Proof. reflexivity. Qed.

(** * Further properties of the two chains *)

(** ** What each interceptor may change *)

(** The action forwarded by the lookup interceptor and by the deletion
    interceptor, as a function of the action received. *)
Definition lookup_action (a : string) : string :=
  if String.eqb a "findUnique" then "findFirst" else a.

Definition delete_action (a : string) : string :=
  if String.eqb a "delete" then "update"
  else if String.eqb a "deleteMany" then "updateMany" else a.

(** [q] has the model of [p], and on an argument object the same class and
    the same arguments, except possibly under the key [K]. *)
Definition frame_on (K : string) (p q : params) : Prop :=
  model q = model p /\
  forall c ps, args p = VObj c ps ->
    exists ps', args q = VObj c ps' /\
                forall k, k <> K -> lookup k ps' = lookup k ps.

Lemma frame_on_refl (K : string) (p : params) : frame_on K p p.
Proof. split; [reflexivity|]. intros c ps H. now exists ps. Qed.

Lemma frame_on_set (K : string) (p : params) (a : string) (c : objclass)
    (ps : props) (v : value) :
  args p = VObj c ps ->
  frame_on K p (mkParams (model p) a (VObj c (set_key K v ps))).
Proof.
  intros Ha. split; [reflexivity|]. intros c' ps' H. rewrite Ha in H.
  injection H as <- <-. eexists. split; [reflexivity|].
  intros k Hk. now apply lookup_set_key_other.
Qed.

Lemma ensure_args_object (p : params) (c : objclass) (ps : props) :
  args p = VObj c ps -> ensure_args p = p.
Proof. intros H. apply ensure_args_fixed. now rewrite H. Qed.

Lemma ensure_args_model_action (p : params) :
  model (ensure_args p) = model p /\ action (ensure_args p) = action p.
Proof. unfold ensure_args. now destruct (negb (truthy (args p))). Qed.

Lemma part000_findUnique_block_shape (p q : params) :
  Part000.findUnique_block p = Ok q ->
  exists c ps w,
    args p = VObj c ps /\
    q = mkParams (model p) "findFirst"
          (VObj c (set_key "where" (VObj Plain w) ps)).
Proof.
  unfold Part000.findUnique_block. simpl. intros H.
  destruct (get_prop (args p) "where") as [w|]; simpl in H; [|discriminate].
  destruct (args p) as [| |b|n|s|c ps]; simpl in H; try discriminate.
  destruct (object_entries w) as [ents|]; simpl in H; [|discriminate].
  destruct (for_of hoist_entry ents []) as [w'|]; simpl in H; [|discriminate].
  injection H as <-. exists c, ps, (set_key "isDeleted" (VBool false) w').
  split; [reflexivity|]. unfold with_args. simpl. now rewrite set_key_set_key.
Qed.

Lemma middleware_findUnique_block_shape (p q : params) :
  Middleware.findUnique_block p = Ok q ->
  exists c ps w,
    args p = VObj c ps /\
    q = mkParams (model p) "findFirst"
          (VObj c (set_key "where" (VObj Plain w) ps)).
Proof.
  unfold Middleware.findUnique_block. simpl. intros H.
  destruct (get_prop (args p) "where") as [w|]; simpl in H; [|discriminate].
  destruct (args p) as [| |b|n|s|c ps]; simpl in H; try discriminate.
  destruct (object_entries w) as [ents|]; simpl in H; [|discriminate].
  destruct (for_of hoist_entry ents []) as [w'|]; simpl in H; [|discriminate].
  injection H as <-. exists c, ps, (set_key "deletedAt" VNull w').
  split; [reflexivity|]. unfold with_args. simpl. now rewrite set_key_set_key.
Qed.

Lemma part000_findMany_block_frame (p q : params) :
  Part000.findMany_block p = Ok q ->
  frame_on "where" p q /\ action q = action p.
Proof.
  intros H. destruct (ensure_args_model_action p) as [Hm Ha].
  assert (Hobj : forall c ps, args p = VObj c ps -> ensure_args p = p)
    by apply ensure_args_object.
  unfold Part000.findMany_block in H.
  destruct (get_prop (args (ensure_args p)) "where") as [w|]; simpl in H;
    [|discriminate].
  destruct (negb (is_undefined w)).
  - destruct (get_prop w "isDeleted") as [d|]; simpl in H; [|discriminate].
    destruct (is_undefined d).
    + destruct (set_prop w "isDeleted" (VBool false)) as [w'|]; simpl in H;
        [|discriminate].
      destruct (args (ensure_args p)) as [| |b|n|s|c0 ps0] eqn:E; simpl in H;
        try discriminate.
      injection H as <-. simpl. split; [|exact Ha]. split; [exact Hm|].
      intros c ps Hp. rewrite (Hobj _ _ Hp), Hp in E. injection E as <- <-.
      eexists. split; [reflexivity|]. intros k Hk.
      now apply lookup_set_key_other.
    + injection H as <-. split; [|exact Ha]. split; [exact Hm|].
      intros c ps Hp. rewrite (Hobj _ _ Hp). now exists ps.
  - destruct (args (ensure_args p)) as [| |b|n|s|c0 ps0] eqn:E; simpl in H;
      try discriminate.
    injection H as <-. simpl. split; [|exact Ha]. split; [exact Hm|].
    intros c ps Hp. rewrite (Hobj _ _ Hp), Hp in E. injection E as <- <-.
    eexists. split; [reflexivity|]. intros k Hk.
    now apply lookup_set_key_other.
Qed.

Lemma middleware_findMany_block_frame (p q : params) :
  Middleware.findMany_block p = Ok q ->
  frame_on "where" p q /\ action q = action p.
Proof.
  intros H. destruct (ensure_args_model_action p) as [Hm Ha].
  assert (Hobj : forall c ps, args p = VObj c ps -> ensure_args p = p)
    by apply ensure_args_object.
  unfold Middleware.findMany_block in H.
  destruct (get_prop (args (ensure_args p)) "where") as [w|]; simpl in H;
    [|discriminate].
  destruct (negb (is_nullish w)).
  - destruct (get_prop w "deletedAt") as [d|]; simpl in H; [|discriminate].
    destruct (is_nullish d).
    + destruct (set_prop w "deletedAt" VNull) as [w'|]; simpl in H;
        [|discriminate].
      destruct (args (ensure_args p)) as [| |b|n|s|c0 ps0] eqn:E; simpl in H;
        try discriminate.
      injection H as <-. simpl. split; [|exact Ha]. split; [exact Hm|].
      intros c ps Hp. rewrite (Hobj _ _ Hp), Hp in E. injection E as <- <-.
      eexists. split; [reflexivity|]. intros k Hk.
      now apply lookup_set_key_other.
    + injection H as <-. split; [|exact Ha]. split; [exact Hm|].
      intros c ps Hp. rewrite (Hobj _ _ Hp). now exists ps.
  - destruct (args (ensure_args p)) as [| |b|n|s|c0 ps0] eqn:E; simpl in H;
      try discriminate.
    injection H as <-. simpl. split; [|exact Ha]. split; [exact Hm|].
    intros c ps Hp. rewrite (Hobj _ _ Hp), Hp in E. injection E as <- <-.
    eexists. split; [reflexivity|]. intros k Hk.
    now apply lookup_set_key_other.
Qed.

Lemma part000_lookup_stage_frame (p q : params) :
  Part000.lookup_stage p = Ok q ->
  frame_on "where" p q /\
  action q = if Part000.model_skipped (model p) then action p
             else lookup_action (action p).
Proof.
  unfold Part000.lookup_stage, lookup_action. intros H.
  destruct (Part000.model_skipped (model p)).
  { injection H as <-. split; [apply frame_on_refl | reflexivity]. }
  destruct (String.eqb (action p) "findUnique") eqn:Eu.
  - destruct (Part000.findUnique_block p) as [q1|] eqn:Hq; simpl in H;
      [|discriminate].
    destruct (part000_findUnique_block_shape _ _ Hq) as (c & ps & w & Ha & ->).
    simpl in H. injection H as <-. split; [|reflexivity].
    now apply frame_on_set.
  - simpl in H. destruct (String.eqb (action p) "findMany").
    + rewrite bind_Ok_r in H. now apply part000_findMany_block_frame.
    + injection H as <-. split; [apply frame_on_refl | reflexivity].
Qed.

Lemma middleware_lookup_stage_frame (p q : params) :
  Middleware.lookup_stage p = Ok q ->
  frame_on "where" p q /\ action q = lookup_action (action p).
Proof.
  unfold Middleware.lookup_stage, lookup_action. intros H.
  destruct (String.eqb (action p) "findUnique") eqn:Eu.
  - destruct (Middleware.findUnique_block p) as [q1|] eqn:Hq; simpl in H;
      [|discriminate].
    destruct (middleware_findUnique_block_shape _ _ Hq)
      as (c & ps & w & Ha & ->).
    simpl in H. injection H as <-. split; [|reflexivity].
    now apply frame_on_set.
  - simpl in H. destruct (String.eqb (action p) "findMany").
    + rewrite bind_Ok_r in H. now apply middleware_findMany_block_frame.
    + injection H as <-. split; [apply frame_on_refl | reflexivity].
Qed.

Lemma part000_delete_stage_frame (now : Z) (p q : params) :
  Part000.delete_stage now p = Ok q ->
  frame_on "data" p q /\
  action q = if Part000.model_skipped (model p) then action p
             else delete_action (action p).
Proof.
  unfold Part000.delete_stage, delete_action. intros H.
  destruct (Part000.model_skipped (model p)).
  { injection H as <-. split; [apply frame_on_refl | reflexivity]. }
  destruct (String.eqb (action p) "delete") eqn:Ed.
  - unfold Part000.delete_block in H. simpl in H.
    destruct (args p) as [| |b|n|s|c ps] eqn:Ha; simpl in H; try discriminate.
    injection H as <-. split; [|reflexivity].
    unfold with_args, with_action. simpl. now apply frame_on_set.
  - simpl in H. destruct (String.eqb (action p) "deleteMany").
    + rewrite bind_Ok_r in H. unfold Part000.deleteMany_block in H.
      destruct (ensure_args_model_action p) as [Hm _].
      assert (Hobj : forall c ps, args p = VObj c ps -> ensure_args p = p)
        by apply ensure_args_object.
      simpl in H.
      destruct (get_prop (args (ensure_args p)) "data") as [d|]; simpl in H;
        [|discriminate].
      destruct (args (ensure_args p)) as [| |b|n|s|c0 ps0] eqn:E;
        destruct (negb (is_nullish d));
        try (destruct d; simpl in H; discriminate);
        try (simpl in H; discriminate).
      * destruct d as [| |b|n|s|cd ds]; simpl in H; try discriminate.
        injection H as <-. simpl. split; [|reflexivity]. split; [exact Hm|].
        intros c ps Hp. rewrite (Hobj _ _ Hp), Hp in E. injection E as <- <-.
        eexists. split; [reflexivity|]. intros k Hk.
        now apply lookup_set_key_other.
      * simpl in H. injection H as <-. simpl. split; [|reflexivity].
        split; [exact Hm|].
        intros c ps Hp. rewrite (Hobj _ _ Hp), Hp in E. injection E as <- <-.
        eexists. split; [reflexivity|]. intros k Hk.
        now apply lookup_set_key_other.
    + injection H as <-. split; [apply frame_on_refl | reflexivity].
Qed.

Lemma middleware_delete_stage_frame (now : Z) (p q : params) :
  Middleware.delete_stage now p = Ok q ->
  frame_on "data" p q /\ action q = delete_action (action p).
Proof.
  unfold Middleware.delete_stage, delete_action. intros H.
  destruct (String.eqb (action p) "delete") eqn:Ed.
  - unfold Middleware.delete_block in H. simpl in H.
    destruct (args p) as [| |b|n|s|c ps] eqn:Ha; simpl in H; try discriminate.
    injection H as <-. split; [|reflexivity].
    unfold with_args, with_action. simpl. now apply frame_on_set.
  - simpl in H. destruct (String.eqb (action p) "deleteMany").
    + rewrite bind_Ok_r in H. unfold Middleware.deleteMany_block in H.
      destruct (ensure_args_model_action p) as [Hm _].
      assert (Hobj : forall c ps, args p = VObj c ps -> ensure_args p = p)
        by apply ensure_args_object.
      simpl in H.
      destruct (get_prop (args (ensure_args p)) "data") as [d|]; simpl in H;
        [|discriminate].
      destruct (args (ensure_args p)) as [| |b|n|s|c0 ps0] eqn:E;
        destruct (negb (is_nullish d));
        try (destruct d; simpl in H; discriminate);
        try (simpl in H; discriminate).
      * destruct d as [| |b|n|s|cd ds]; simpl in H; try discriminate.
        injection H as <-. simpl. split; [|reflexivity]. split; [exact Hm|].
        intros c ps Hp. rewrite (Hobj _ _ Hp), Hp in E. injection E as <- <-.
        eexists. split; [reflexivity|]. intros k Hk.
        now apply lookup_set_key_other.
      * simpl in H. injection H as <-. simpl. split; [|reflexivity].
        split; [exact Hm|].
        intros c ps Hp. rewrite (Hobj _ _ Hp), Hp in E. injection E as <- <-.
        eexists. split; [reflexivity|]. intros k Hk.
        now apply lookup_set_key_other.
    + injection H as <-. split; [apply frame_on_refl | reflexivity].
Qed.

Lemma middleware_update_stage_frame (now : Z) (p q : params) :
  Middleware.update_stage now p = Ok q ->
  frame_on "data" p q /\ action q = action p.
Proof.
  unfold Middleware.update_stage. intros H.
  destruct (String.eqb (action p) "updateMany" || String.eqb (action p) "update").
  - destruct (ensure_args_model_action p) as [Hm Hact].
    assert (Hobj : forall c ps, args p = VObj c ps -> ensure_args p = p)
      by apply ensure_args_object.
    destruct (get_prop (args (ensure_args p)) "data") as [d|]; simpl in H;
      [|discriminate].
    destruct (args (ensure_args p)) as [| |b|n|s|c0 ps0] eqn:E;
      try (destruct (negb (truthy d)); simpl in H; try discriminate;
           match type of H with
           | context [set_prop ?x "updatedAt" ?v] =>
               destruct (set_prop x "updatedAt" v)
           end; simpl in H; discriminate).
    assert (Hshape : exists ps1,
               (if negb (truthy d)
                then set_prop (VObj c0 ps0) "data" (VObj Plain [])
                else Ok (VObj c0 ps0)) = Ok (VObj c0 ps1) /\
               forall k, k <> "data" -> lookup k ps1 = lookup k ps0).
    { destruct (negb (truthy d)); simpl; eexists; split; try reflexivity.
      intros k Hk. now apply lookup_set_key_other. }
    destruct Hshape as (ps1 & Hsh & Hps1). rewrite Hsh in H. simpl in H.
    destruct (set_prop _ "updatedAt" (new_Date now)) as [d'|]; simpl in H;
      [|discriminate].
    injection H as <-. simpl. split; [|exact Hact]. split; [exact Hm|].
    intros c ps Hp. rewrite (Hobj _ _ Hp), Hp in E. injection E as <- <-.
    eexists. split; [reflexivity|]. intros k Hk.
    rewrite lookup_set_key_other by exact Hk. now apply Hps1.
  - injection H as <-. split; [apply frame_on_refl | reflexivity].
Qed.

Lemma include_stage_frame_on (p q : params) :
  Part000.include_stage p = Ok q ->
  frame_on "include" p q /\ action q = action p.
Proof.
  intros H. unfold Part000.include_stage in H.
  destruct (get_prop (args p) "include") as [inc|] eqn:Hinc; simpl in H;
    [|discriminate].
  destruct (truthy inc) eqn:Ht.
  - destruct (for_of Part000.include_entry (keys (own_entries inc)) inc)
      as [inc'|] eqn:Hloop; simpl in H; [|discriminate].
    destruct (args p) as [| |b|n|s|c aps] eqn:Ha; simpl in H;
      try discriminate.
    injection H as <-. simpl. split; [|reflexivity].
    split; [reflexivity|]. simpl. rewrite Ha. intros c0 ps0 [= <- <-].
    eexists. split; [reflexivity|]. intros k Hk.
    now apply lookup_set_key_other.
  - injection H as <-. split; [apply frame_on_refl | reflexivity].
Qed.

Lemma frame_on_trans (K1 K2 : string) (p q r : params) (Ks : list string) :
  frame_on K1 p q ->
  (model r = model q /\
   forall c ps, args q = VObj c ps ->
     exists ps', args r = VObj c ps' /\
                 forall k, ~ In k Ks -> lookup k ps' = lookup k ps) ->
  model r = model p /\
  forall c ps, args p = VObj c ps ->
    exists ps', args r = VObj c ps' /\
                forall k, ~ In k (K1 :: Ks) -> lookup k ps' = lookup k ps.
Proof.
  intros [Hm1 H1] [Hm2 H2]. split; [congruence|].
  intros c ps Hp. destruct (H1 c ps Hp) as (ps1 & Hq & Hk1).
  destruct (H2 c ps1 Hq) as (ps2 & Hr & Hk2).
  exists ps2. split; [exact Hr|]. intros k Hk. simpl in Hk.
  rewrite Hk2 by tauto. apply Hk1. intros ->. tauto.
Qed.

Lemma rewritten_action_safe (a : string) :
  delete_action (lookup_action a) <> "delete" /\
  delete_action (lookup_action a) <> "deleteMany" /\
  delete_action (lookup_action a) <> "findUnique" /\
  (a <> "findMany" -> delete_action (lookup_action a) <> "findMany").
Proof.
  unfold delete_action, lookup_action.
  destruct (String.eqb a "findUnique") eqn:Eu; simpl.
  - repeat split; discriminate.
  - destruct (String.eqb a "delete") eqn:Ed;
      [repeat split; discriminate|].
    destruct (String.eqb a "deleteMany") eqn:Em;
      [repeat split; discriminate|].
    apply String.eqb_neq in Eu, Ed, Em. repeat split; auto.
Qed.

Lemma part000_chain_stages (now : Z) (p p' : params) :
  Part000.applyMiddleware now p = Ok p' ->
  exists q r,
    Part000.lookup_stage p = Ok q /\
    Part000.delete_stage now q = Ok r /\
    Part000.include_stage r = Ok p'.
Proof.
  unfold Part000.applyMiddleware. intros H.
  destruct (Part000.lookup_stage p) as [q|]; simpl in H; [|discriminate].
  destruct (Part000.delete_stage now q) as [r|] eqn:Hr; simpl in H;
    [|discriminate].
  now exists q, r.
Qed.

Lemma middleware_chain_stages (t_upd t_del : Z) (p p' : params) :
  Middleware.applyMiddleware t_upd t_del p = Ok p' ->
  exists q r,
    Middleware.lookup_stage p = Ok q /\
    Middleware.update_stage t_upd q = Ok r /\
    Middleware.delete_stage t_del r = Ok p'.
Proof.
  unfold Middleware.applyMiddleware. intros H.
  destruct (Middleware.lookup_stage p) as [q|]; simpl in H; [|discriminate].
  destruct (Middleware.update_stage t_upd q) as [r|] eqn:Hr; simpl in H;
    [|discriminate].
  now exists q, r.
Qed.

Lemma part000_chain_action (now : Z) (p p' : params) :
  Part000.applyMiddleware now p = Ok p' ->
  model p' = model p /\
  action p' = if Part000.model_skipped (model p) then action p
              else delete_action (lookup_action (action p)).
Proof.
  intros H. destruct (part000_chain_stages _ _ _ H) as (q & r & Hq & Hr & Hi).
  destruct (part000_lookup_stage_frame _ _ Hq) as [[Hm1 _] Ha1].
  destruct (part000_delete_stage_frame _ _ _ Hr) as [[Hm2 _] Ha2].
  destruct (include_stage_frame_on _ _ Hi) as [[Hm3 _] Ha3].
  split; [congruence|].
  rewrite Ha3, Ha2, Hm1, Ha1.
  now destruct (Part000.model_skipped (model p)).
Qed.

Lemma middleware_chain_action (t_upd t_del : Z) (p p' : params) :
  Middleware.applyMiddleware t_upd t_del p = Ok p' ->
  model p' = model p /\
  action p' = delete_action (lookup_action (action p)).
Proof.
  intros H.
  destruct (middleware_chain_stages _ _ _ _ H) as (q & r & Hq & Hr & Hd).
  destruct (middleware_lookup_stage_frame _ _ Hq) as [[Hm1 _] Ha1].
  destruct (middleware_update_stage_frame _ _ _ Hr) as [[Hm2 _] Ha2].
  destruct (middleware_delete_stage_frame _ _ _ Hd) as [[Hm3 _] Ha3].
  split; [congruence|]. now rewrite Ha3, Ha2, Ha1.
Qed.

(** X1.  Whatever the chain of [src/middleware.ts] forwards is never a
    [delete], a [deleteMany] or a [findUnique]; the same holds for the chain
    of [part_000] when the model is not on the skip list, and for a model on
    the skip list that chain forwards the action it received.  Neither chain
    changes the model. *)
Theorem no_hard_delete_reaches_the_engine :
  (forall t_upd t_del p p',
     Middleware.applyMiddleware t_upd t_del p = Ok p' ->
     model p' = model p /\
     action p' <> "delete" /\ action p' <> "deleteMany" /\
     action p' <> "findUnique")
  /\
  (forall now p p',
     Part000.applyMiddleware now p = Ok p' ->
     model p' = model p /\
     (Part000.model_skipped (model p) = false ->
      action p' <> "delete" /\ action p' <> "deleteMany" /\
      action p' <> "findUnique") /\
     (Part000.model_skipped (model p) = true -> action p' = action p)).
Proof.
  split.
  - intros t_upd t_del p p' H.
    destruct (middleware_chain_action _ _ _ _ H) as [Hm ->].
    split; [exact Hm|].
    destruct (rewritten_action_safe (action p)) as (H1 & H2 & H3 & _).
    now repeat split.
  - intros now p p' H.
    destruct (part000_chain_action _ _ _ H) as [Hm Ha].
    split; [exact Hm|]. split; intros Hs; rewrite Hs in Ha.
    + rewrite Ha.
      destruct (rewritten_action_safe (action p)) as (H1 & H2 & H3 & _).
      now repeat split.
    + exact Ha.
Qed.

Lemma no_hard_delete_reaches_the_engine_witness :
  action (mkParams (Some "Order") "update"
            (VObj Plain
               [("where", VObj Plain [("id", VNum 3)]);
                ("data", VObj Plain (Part000.tombstone 9))])) <> "delete".
Proof.
  apply (proj2 no_hard_delete_reaches_the_engine 9%Z
           (mkParams (Some "Order") "delete"
              (VObj Plain [("where", VObj Plain [("id", VNum 3)])]))
           _ eq_refl).
  reflexivity.
Defined.

(** X2.  On an argument object, the chain of [part_000] changes nothing but
    what is stored under [where], [data] and [include], and the chain of
    [src/middleware.ts] nothing but [where] and [data]: every other
    argument ([select], [orderBy], [take], ...) reaches the engine as the
    caller gave it, in an argument object of the same kind. *)
Theorem chain_keeps_other_arguments :
  (forall now p p' c ps,
     args p = VObj c ps ->
     Part000.applyMiddleware now p = Ok p' ->
     exists ps',
       args p' = VObj c ps' /\
       forall k, k <> "where" -> k <> "data" -> k <> "include" ->
                 lookup k ps' = lookup k ps)
  /\
  (forall t_upd t_del p p' c ps,
     args p = VObj c ps ->
     Middleware.applyMiddleware t_upd t_del p = Ok p' ->
     exists ps',
       args p' = VObj c ps' /\
       forall k, k <> "where" -> k <> "data" -> lookup k ps' = lookup k ps).
Proof.
  split.
  - intros now p p' c ps Ha H.
    destruct (part000_chain_stages _ _ _ H) as (q & r & Hq & Hr & Hi).
    destruct (part000_lookup_stage_frame _ _ Hq) as [[_ F1] _].
    destruct (part000_delete_stage_frame _ _ _ Hr) as [[_ F2] _].
    destruct (include_stage_frame_on _ _ Hi) as [[_ F3] _].
    destruct (F1 _ _ Ha) as (ps1 & Ha1 & K1).
    destruct (F2 _ _ Ha1) as (ps2 & Ha2 & K2).
    destruct (F3 _ _ Ha2) as (ps3 & Ha3 & K3).
    exists ps3. split; [exact Ha3|]. intros k Hw Hd Hin.
    now rewrite K3, K2, K1.
  - intros t_upd t_del p p' c ps Ha H.
    destruct (middleware_chain_stages _ _ _ _ H) as (q & r & Hq & Hr & Hd).
    destruct (middleware_lookup_stage_frame _ _ Hq) as [[_ F1] _].
    destruct (middleware_update_stage_frame _ _ _ Hr) as [[_ F2] _].
    destruct (middleware_delete_stage_frame _ _ _ Hd) as [[_ F3] _].
    destruct (F1 _ _ Ha) as (ps1 & Ha1 & K1).
    destruct (F2 _ _ Ha1) as (ps2 & Ha2 & K2).
    destruct (F3 _ _ Ha2) as (ps3 & Ha3 & K3).
    exists ps3. split; [exact Ha3|]. intros k Hw Hdt.
    now rewrite K3, K2, K1.
Qed.

Lemma chain_keeps_other_arguments_witness :
  exists ps',
    VObj Plain
      [("take", VNum 10);
       ("where", VObj Plain [("isDeleted", VBool false)])] = VObj Plain ps' /\
    forall k, k <> "where" -> k <> "data" -> k <> "include" ->
              lookup k ps' = lookup k [("take", VNum 10)].
Proof.
  apply (proj1 chain_keeps_other_arguments 0%Z
           (mkParams (Some "Order") "findMany" (VObj Plain [("take", VNum 10)]))
           (mkParams (Some "Order") "findMany"
              (VObj Plain
                 [("take", VNum 10);
                  ("where", VObj Plain [("isDeleted", VBool false)])]))
           Plain [("take", VNum 10)] eq_refl eq_refl).
Defined.

(** ** Actions the interceptors leave alone *)

Lemma part000_lookup_stage_other (p : params) :
  action p <> "findUnique" -> action p <> "findMany" ->
  Part000.lookup_stage p = Ok p.
Proof.
  intros H1 H2. unfold Part000.lookup_stage.
  apply String.eqb_neq in H1, H2.
  destruct (Part000.model_skipped (model p)); [reflexivity|].
  rewrite H1. simpl. now rewrite H2.
Qed.

Lemma part000_delete_stage_other (now : Z) (p : params) :
  action p <> "delete" -> action p <> "deleteMany" ->
  Part000.delete_stage now p = Ok p.
Proof.
  intros H1 H2. unfold Part000.delete_stage.
  apply String.eqb_neq in H1, H2.
  destruct (Part000.model_skipped (model p)); [reflexivity|].
  rewrite H1. simpl. now rewrite H2.
Qed.

Lemma middleware_lookup_stage_other (p : params) :
  action p <> "findUnique" -> action p <> "findMany" ->
  Middleware.lookup_stage p = Ok p.
Proof.
  intros H1 H2. unfold Middleware.lookup_stage.
  apply String.eqb_neq in H1, H2. rewrite H1. simpl. now rewrite H2.
Qed.

Lemma middleware_delete_stage_other (now : Z) (p : params) :
  action p <> "delete" -> action p <> "deleteMany" ->
  Middleware.delete_stage now p = Ok p.
Proof.
  intros H1 H2. unfold Middleware.delete_stage.
  apply String.eqb_neq in H1, H2. rewrite H1. simpl. now rewrite H2.
Qed.

(** X3.  The chain of [part_000] is idempotent on every descriptor: what it
    forwards, it forwards unchanged when given it again, at any clock
    reading.  (The chain of [src/middleware.ts] is not: it stamps
    [updatedAt] on the [update] it made of a [delete].) *)
Theorem part000_chain_idempotent_everywhere (now now' : Z) (p p1 : params) :
  Part000.applyMiddleware now p = Ok p1 ->
  Part000.applyMiddleware now' p1 = Ok p1.
Proof.
  intros H.
  destruct (String.eqb (action p) "findMany") eqn:Efm.
  { apply String.eqb_eq in Efm.
    now destruct (part000_chain_idempotent now now' p p1 Efm H). }
  apply String.eqb_neq in Efm.
  destruct (part000_chain_action _ _ _ H) as [Hm Ha].
  destruct (part000_chain_stages _ _ _ H) as (q & r & Hq & Hr & Hi).
  pose proof (include_stage_idempotent _ _ Hi) as Hi1.
  unfold Part000.applyMiddleware.
  destruct (Part000.model_skipped (model p)) eqn:Hs.
  - assert (HL : Part000.lookup_stage p1 = Ok p1).
    { unfold Part000.lookup_stage. now rewrite Hm, Hs. }
    assert (HD : Part000.delete_stage now' p1 = Ok p1).
    { unfold Part000.delete_stage. now rewrite Hm, Hs. }
    rewrite HL. simpl. rewrite HD. simpl. exact Hi1.
  - destruct (rewritten_action_safe (action p)) as (H1 & H2 & H3 & H4).
    rewrite <- Ha in H1, H2, H3, H4.
    rewrite (part000_lookup_stage_other p1 H3 (H4 Efm)). simpl.
    rewrite (part000_delete_stage_other now' p1 H1 H2). simpl.
    exact Hi1.
Qed.

Lemma part000_chain_idempotent_everywhere_witness :
  Part000.applyMiddleware 8
    (mkParams (Some "Order") "update"
       (VObj Plain
          [("where", VObj Plain [("id", VNum 3)]);
           ("data", VObj Plain (Part000.tombstone 7))])) =
  Ok (mkParams (Some "Order") "update"
        (VObj Plain
           [("where", VObj Plain [("id", VNum 3)]);
            ("data", VObj Plain (Part000.tombstone 7))])).
Proof.
  apply (part000_chain_idempotent_everywhere 7 8
           (mkParams (Some "Order") "delete"
              (VObj Plain [("where", VObj Plain [("id", VNum 3)])]))).
  reflexivity.
Defined.

Definition soft_deleted_post : params :=
  mkParams (Some "Post") "update"
    (VObj Plain [("where", VObj Plain [("id", VNum 2)]);
                 ("data", VObj Plain [("deletedAt", new_Date 2)])]).

(** X4.  Whatever the action is, if it is none of the six the interceptors
    look for ([findUnique], [findMany], [update], [updateMany], [delete],
    [deleteMany]), the chain of [src/middleware.ts] forwards the descriptor
    unchanged, with or without arguments; and the first two interceptors of
    [part_000] forward it unchanged, so that its chain does to it what the
    relation-inclusion interceptor alone does.  In particular a [findFirst],
    [count] or [aggregate] issued by the caller gets no tombstone filter in
    [where], and a [create] is never touched by the lookup and deletion
    rules. *)
Theorem other_actions_pass_through (p : params) :
  action p <> "findUnique" -> action p <> "findMany" ->
  action p <> "delete" -> action p <> "deleteMany" ->
  (action p <> "update" -> action p <> "updateMany" ->
   forall t_upd t_del, Middleware.applyMiddleware t_upd t_del p = Ok p)
  /\
  (forall now,
     Part000.lookup_stage p = Ok p /\
     Part000.delete_stage now p = Ok p /\
     Part000.applyMiddleware now p = Part000.include_stage p)
  /\
  (forall now p',
     Part000.applyMiddleware now p = Ok p' ->
     where_field "isDeleted" p' = where_field "isDeleted" p).
Proof.
  intros Hu Hm Hd Hdm.
  assert (Hchain : forall now,
             Part000.applyMiddleware now p = Part000.include_stage p).
  { intros now. unfold Part000.applyMiddleware.
    rewrite part000_lookup_stage_other by assumption. simpl.
    now rewrite part000_delete_stage_other by assumption. }
  split; [|split].
  - intros Hup Hum t_upd t_del. unfold Middleware.applyMiddleware.
    rewrite middleware_lookup_stage_other by assumption. simpl.
    rewrite middleware_update_stage_other by assumption. simpl.
    now apply middleware_delete_stage_other.
  - intros now. split; [now apply part000_lookup_stage_other|].
    split; [now apply part000_delete_stage_other | apply Hchain].
  - intros now p' H. rewrite Hchain in H.
    destruct (include_stage_frame _ _ H) as (_ & _ & Hf).
    unfold where_field. now rewrite Hf by discriminate.
Qed.

Lemma other_actions_pass_through_witness :
  Middleware.applyMiddleware 1 2
    (mkParams (Some "Post") "findFirst"
       (VObj Plain [("where", VObj Plain [("id", VNum 2)])])) =
  Ok (mkParams (Some "Post") "findFirst"
        (VObj Plain [("where", VObj Plain [("id", VNum 2)])])).
Proof.
  apply (proj1 (other_actions_pass_through
                  (mkParams (Some "Post") "findFirst"
                     (VObj Plain [("where", VObj Plain [("id", VNum 2)])]))
                  ltac:(discriminate) ltac:(discriminate)
                  ltac:(discriminate) ltac:(discriminate))
           ltac:(discriminate) ltac:(discriminate)).
Defined.

Example middleware_chain_not_idempotent_on_delete :
  Middleware.applyMiddleware 1 2
    (mkParams (Some "Post") "delete"
       (VObj Plain [("where", VObj Plain [("id", VNum 2)])])) =
    Ok soft_deleted_post /\
  Middleware.applyMiddleware 3 4 soft_deleted_post <> Ok soft_deleted_post.
Proof. split; [reflexivity | discriminate]. Qed.

(** ** Filtering a [findMany] *)

(** X5.  A [findMany] on an argument object (of a model outside the skip
    list, in [part_000]) whose [where] is absent or [undefined] is forwarded
    with [where] set to the not-tombstoned clause alone; one whose [where]
    is an object in which the tombstone field is absent or [undefined] is
    forwarded with that field set in the same object, every other field of
    [where] staying as the caller gave it.  In [src/middleware.ts] the
    same holds with [deletedAt: null]. *)
Theorem findMany_adds_clause
    (m : option string) (c : objclass) (ps : props) :
  (elt "where" ps = VUndefined ->
   (Part000.model_skipped m = false ->
    Part000.lookup_stage (mkParams m "findMany" (VObj c ps)) =
    Ok (mkParams m "findMany"
          (VObj c (set_key "where"
                     (VObj Plain [("isDeleted", VBool false)]) ps))))
   /\
   Middleware.lookup_stage (mkParams m "findMany" (VObj c ps)) =
   Ok (mkParams m "findMany"
         (VObj c (set_key "where" (VObj Plain [("deletedAt", VNull)]) ps))))
  /\
  (forall cw ws,
     lookup "where" ps = Some (VObj cw ws) ->
     (Part000.model_skipped m = false ->
      elt "isDeleted" ws = VUndefined ->
      exists ws',
        Part000.lookup_stage (mkParams m "findMany" (VObj c ps)) =
          Ok (mkParams m "findMany"
                (VObj c (set_key "where" (VObj cw ws') ps))) /\
        lookup "isDeleted" ws' = Some (VBool false) /\
        forall k, k <> "isDeleted" -> lookup k ws' = lookup k ws)
     /\
     (elt "deletedAt" ws = VUndefined ->
      exists ws',
        Middleware.lookup_stage (mkParams m "findMany" (VObj c ps)) =
          Ok (mkParams m "findMany"
                (VObj c (set_key "where" (VObj cw ws') ps))) /\
        lookup "deletedAt" ws' = Some VNull /\
        forall k, k <> "deletedAt" -> lookup k ws' = lookup k ws)).
Proof.
  split.
  - intros Hw. split.
    + intros Hm. unfold Part000.lookup_stage. simpl. rewrite Hm.
      unfold Part000.findMany_block. simpl. fold (elt "where" ps).
      now rewrite Hw.
    + unfold Middleware.lookup_stage, Middleware.findMany_block. simpl.
      fold (elt "where" ps). now rewrite Hw.
  - intros cw ws Hw. split.
    + intros Hm Hd. eexists. split; [|split].
      * unfold Part000.lookup_stage. simpl. rewrite Hm.
        unfold Part000.findMany_block. simpl. rewrite Hw. simpl.
        fold (elt "isDeleted" ws). rewrite Hd. reflexivity.
      * apply lookup_set_key_same.
      * intros k Hk. now apply lookup_set_key_other.
    + intros Hd. eexists. split; [|split].
      * unfold Middleware.lookup_stage, Middleware.findMany_block. simpl.
        rewrite Hw. simpl. fold (elt "deletedAt" ws). rewrite Hd.
        reflexivity.
      * apply lookup_set_key_same.
      * intros k Hk. now apply lookup_set_key_other.
Qed.

Lemma findMany_adds_clause_witness :
  exists ws',
    Part000.lookup_stage
      (mkParams (Some "Order") "findMany"
         (VObj Plain [("where", VObj Plain [("status", VStr "X")])])) =
    Ok (mkParams (Some "Order") "findMany"
          (VObj Plain
             (set_key "where" (VObj Plain ws')
                [("where", VObj Plain [("status", VStr "X")])]))) /\
    lookup "isDeleted" ws' = Some (VBool false) /\
    forall k, k <> "isDeleted" ->
              lookup k ws' = lookup k [("status", VStr "X")].
Proof.
  apply (proj1 (proj2 (findMany_adds_clause (Some "Order") Plain
                         [("where", VObj Plain [("status", VStr "X")])])
                  Plain [("status", VStr "X")] eq_refl)).
  - reflexivity.
  - reflexivity.
Defined.

(** No field name the middleware uses is an index of a string. *)
Lemma chars_from_no_field (f : string) (s : string) (i : nat) :
  (forall u, NilZero.string_of_uint u <> f) ->
  lookup f (chars_from i s) = None.
Proof.
  intros Hf. revert i. induction s as [|a s IH]; intros i; simpl;
    [reflexivity|].
  destruct (String.eqb f (index_key i)) eqn:E; [|apply IH].
  apply String.eqb_eq in E. unfold index_key in E.
  now destruct (Hf (Nat.to_uint i)).
Qed.

Lemma isDeleted_not_index (u : Decimal.uint) :
  NilZero.string_of_uint u <> "isDeleted".
Proof. destruct u; simpl; discriminate. Qed.

Lemma deletedAt_not_index (u : Decimal.uint) :
  NilZero.string_of_uint u <> "deletedAt".
Proof. destruct u; simpl; discriminate. Qed.

(** A value that is neither an object nor [null] nor [undefined]. *)
Definition is_primitive (v : value) : bool :=
  match v with
  | VBool _ | VNum _ | VStr _ => true
  | _ => false
  end.

(** X6.  A [findMany] whose [where] is present but not an object.  With
    [where: null], [part_000] (strict [!== undefined]) reads a property of
    [null] and throws, while [src/middleware.ts] (loose [!= undefined])
    replaces the [null] by the not-tombstoned clause.  With a boolean,
    number or string as [where], both variants throw on the assignment of
    the tombstone field. *)
Theorem findMany_where_not_an_object
    (m : option string) (c : objclass) (ps : props) :
  (lookup "where" ps = Some VNull ->
   (Part000.model_skipped m = false ->
    Part000.lookup_stage (mkParams m "findMany" (VObj c ps)) = TypeError)
   /\
   Middleware.lookup_stage (mkParams m "findMany" (VObj c ps)) =
   Ok (mkParams m "findMany"
         (VObj c (set_key "where" (VObj Plain [("deletedAt", VNull)]) ps))))
  /\
  (forall w,
     lookup "where" ps = Some w -> is_primitive w = true ->
     (Part000.model_skipped m = false ->
      Part000.lookup_stage (mkParams m "findMany" (VObj c ps)) = TypeError)
     /\
     Middleware.lookup_stage (mkParams m "findMany" (VObj c ps)) = TypeError).
Proof.
  split.
  - intros Hw. split.
    + intros Hm. unfold Part000.lookup_stage. simpl. rewrite Hm.
      unfold Part000.findMany_block. simpl. now rewrite Hw.
    + unfold Middleware.lookup_stage, Middleware.findMany_block. simpl.
      now rewrite Hw.
  - intros w Hw Hp. split.
    + intros Hm. unfold Part000.lookup_stage. simpl. rewrite Hm.
      unfold Part000.findMany_block. simpl. rewrite Hw.
      destruct w as [| |b|n|s|cw ws]; try discriminate; simpl;
        try reflexivity.
      now rewrite (chars_from_no_field _ s 0 isDeleted_not_index).
    + unfold Middleware.lookup_stage, Middleware.findMany_block. simpl.
      rewrite Hw.
      destruct w as [| |b|n|s|cw ws]; try discriminate; simpl;
        try reflexivity.
      now rewrite (chars_from_no_field _ s 0 deletedAt_not_index).
Qed.

Lemma findMany_where_not_an_object_witness :
  Part000.lookup_stage
    (mkParams (Some "Order") "findMany" (VObj Plain [("where", VNull)]))
  = TypeError.
Proof.
  apply (proj1 (proj1 (findMany_where_not_an_object (Some "Order") Plain
                         [("where", VNull)]) eq_refl)).
  reflexivity.
Defined.

(** ** Rebuilding the predicate of a [findUnique] *)

(** Assigning a list of entries in order. *)
Definition assign_all (l w : props) : props :=
  fold_left (fun w' kv => set_key (fst kv) (snd kv) w') l w.

Lemma lookup_app (A : Type) (k : string) (l1 l2 : list (string * A)) :
  lookup k (l1 ++ l2) =
  match lookup k l1 with Some v => Some v | None => lookup k l2 end.
Proof.
  induction l1 as [|[k' v'] l1 IH]; simpl; [reflexivity|].
  now destruct (String.eqb k k').
Qed.

Lemma lookup_set_key (k k' : string) (v : value) (ps : props) :
  lookup k (set_key k' v ps) =
  if String.eqb k k' then Some v else lookup k ps.
Proof.
  destruct (String.eqb k k') eqn:E.
  - apply String.eqb_eq in E. subst. apply lookup_set_key_same.
  - apply String.eqb_neq in E. now apply lookup_set_key_other.
Qed.

(** After assigning the entries of [l] in order, a key holds the value of
    its last entry in [l], or what it held before. *)
Lemma lookup_assign_all (k : string) (l w : props) :
  lookup k (assign_all l w) =
  match lookup k (rev l) with Some v => Some v | None => lookup k w end.
Proof.
  unfold assign_all. revert w.
  induction l as [|[k' v'] l IH]; intros w; simpl; [reflexivity|].
  rewrite IH, lookup_app. simpl.
  destruct (lookup k (rev l)); [reflexivity|].
  rewrite lookup_set_key. now destruct (String.eqb k k').
Qed.

Lemma for_of_set_assign (subs w : props) :
  for_of (fun w' subarg => Ok (set_key (fst subarg) (snd subarg) w')) subs w =
  Ok (assign_all subs w).
Proof.
  unfold assign_all. revert w.
  induction subs as [|kv subs IH]; intros w; simpl; [reflexivity|apply IH].
Qed.

Lemma hoist_loop_assigns (ws w : props) :
  (forall k, ~ In (k, VNull) ws) ->
  for_of hoist_entry ws w = Ok (assign_all (flattened_spec ws) w).
Proof.
  revert w. induction ws as [|[k v] ws IH]; intros w Hnull; simpl;
    [reflexivity|].
  assert (Hnull' : forall k0, ~ In (k0, VNull) ws).
  { intros k0 H. apply (Hnull k0). now right. }
  unfold assign_all in *. rewrite fold_left_app.
  unfold hoist_entry, is_scalar. simpl.
  destruct v as [| |b|n|s|c es]; simpl; try (now apply IH).
  - exfalso. apply (Hnull k). now left.
  - rewrite for_of_set_assign. simpl. now apply IH.
Qed.

(** X7.  A [findUnique] on an argument object whose [where] is neither
    [null] nor [undefined] and has no [null] entry is always rewritten (so a
    [null] entry is the only way the loop throws), whatever keys collide: in
    the forwarded [where] the tombstone field holds the not-tombstoned value,
    and every other key holds the value of its last occurrence in the
    flattened predicate, later entries overriding earlier ones. *)
Theorem findUnique_last_entry_wins
    (m : option string) (c : objclass) (ps : props) (w : value) :
  lookup "where" ps = Some w ->
  is_nullish w = false ->
  (forall k, ~ In (k, VNull) (own_entries w)) ->
  (Part000.model_skipped m = false ->
   exists w',
     Part000.lookup_stage (mkParams m "findUnique" (VObj c ps)) =
       Ok (mkParams m "findFirst"
             (VObj c (set_key "where" (VObj Plain w') ps))) /\
     lookup "isDeleted" w' = Some (VBool false) /\
     forall k, k <> "isDeleted" ->
               lookup k w' = lookup k (rev (flattened_spec (own_entries w))))
  /\
  (exists w',
     Middleware.lookup_stage (mkParams m "findUnique" (VObj c ps)) =
       Ok (mkParams m "findFirst"
             (VObj c (set_key "where" (VObj Plain w') ps))) /\
     lookup "deletedAt" w' = Some VNull /\
     forall k, k <> "deletedAt" ->
               lookup k w' = lookup k (rev (flattened_spec (own_entries w)))).
Proof.
  intros Hw Hn Hnull.
  assert (He : object_entries w = Ok (own_entries w))
    by (destruct w; simpl in *; congruence).
  split.
  - intros Hm. eexists. split; [|split].
    + unfold Part000.lookup_stage. simpl. rewrite Hm.
      unfold Part000.findUnique_block. simpl. rewrite Hw. simpl.
      rewrite He. simpl. rewrite hoist_loop_assigns by exact Hnull. simpl.
      unfold with_args, with_action. simpl. rewrite set_key_set_key.
      reflexivity.
    + apply lookup_set_key_same.
    + intros k Hk. rewrite lookup_set_key_other by exact Hk.
      rewrite lookup_assign_all. simpl.
      now destruct (lookup k (rev (flattened_spec (own_entries w)))).
  - eexists. split; [|split].
    + unfold Middleware.lookup_stage, Middleware.findUnique_block. simpl.
      rewrite Hw. simpl.
      rewrite He. simpl. rewrite hoist_loop_assigns by exact Hnull. simpl.
      unfold with_args, with_action. simpl. rewrite set_key_set_key.
      reflexivity.
    + apply lookup_set_key_same.
    + intros k Hk. rewrite lookup_set_key_other by exact Hk.
      rewrite lookup_assign_all. simpl.
      now destruct (lookup k (rev (flattened_spec (own_entries w)))).
Qed.

Lemma findUnique_last_entry_wins_witness :
  exists w',
    Middleware.lookup_stage
      (mkParams (Some "Membership") "findUnique"
         (VObj Plain
            [("where",
              VObj Plain
                [("userId", VStr "u0");
                 ("userId_teamId",
                  VObj Plain [("userId", VStr "u1");
                              ("teamId", VStr "t1")])])])) =
    Ok (mkParams (Some "Membership") "findFirst"
          (VObj Plain
             (set_key "where" (VObj Plain w')
                [("where",
                  VObj Plain
                    [("userId", VStr "u0");
                     ("userId_teamId",
                      VObj Plain [("userId", VStr "u1");
                                  ("teamId", VStr "t1")])])]))) /\
    lookup "deletedAt" w' = Some VNull /\
    forall k, k <> "deletedAt" ->
      lookup k w' =
      lookup k [("teamId", VStr "t1"); ("userId", VStr "u1");
                ("userId", VStr "u0")].
Proof.
  apply (proj2 (findUnique_last_entry_wins (Some "Membership") Plain
                  [("where",
                    VObj Plain
                      [("userId", VStr "u0");
                       ("userId_teamId",
                        VObj Plain [("userId", VStr "u1");
                                    ("teamId", VStr "t1")])])]
                  _ eq_refl eq_refl
                  ltac:(intros k [H | [H | []]]; discriminate))).
Defined.

Lemma flattened_spec_empty_objects (ws : props) :
  (forall kv, In kv ws -> exists co, snd kv = VObj co []) ->
  flattened_spec ws = [].
Proof.
  induction ws as [|[k v] ws IH]; intros H; simpl; [reflexivity|].
  destruct (H (k, v) (or_introl eq_refl)) as [co Hv]. simpl in Hv. subst v.
  simpl. apply IH. intros kv Hin. apply H. now right.
Qed.

(** X8.  A [findUnique] whose [where] object has only entries whose values
    are objects without own properties (a [Date], an empty object) is
    forwarded as a [findFirst] whose [where] is the not-tombstoned clause
    alone: the caller's keys are gone, and the lookup matches any live
    row. *)
Theorem findUnique_drops_empty_objects
    (m : option string) (c cw : objclass) (ps ws : props) :
  lookup "where" ps = Some (VObj cw ws) ->
  (forall kv, In kv ws -> exists co, snd kv = VObj co []) ->
  (Part000.model_skipped m = false ->
   Part000.lookup_stage (mkParams m "findUnique" (VObj c ps)) =
   Ok (mkParams m "findFirst"
         (VObj c (set_key "where"
                    (VObj Plain [("isDeleted", VBool false)]) ps))))
  /\
  Middleware.lookup_stage (mkParams m "findUnique" (VObj c ps)) =
  Ok (mkParams m "findFirst"
        (VObj c (set_key "where" (VObj Plain [("deletedAt", VNull)]) ps))).
Proof.
  intros Hw Hall.
  pose proof (flattened_spec_empty_objects ws Hall) as Hflat.
  assert (Hnull : forall k, ~ In (k, VNull) (own_entries (VObj cw ws))).
  { simpl. intros k Hin. destruct (Hall _ Hin) as [co Hco]. discriminate. }
  split.
  - intros Hm.
    rewrite (part000_findUnique_flatten m c ps _ Hm Hw eq_refl Hnull);
      simpl; rewrite Hflat; simpl; try reflexivity; try constructor.
    tauto.
  - rewrite (middleware_findUnique_flatten m c ps _ Hw eq_refl Hnull);
      simpl; rewrite Hflat; simpl; try reflexivity; try constructor.
    tauto.
Qed.

Lemma findUnique_drops_empty_objects_witness :
  Middleware.lookup_stage
    (mkParams (Some "Session") "findUnique"
       (VObj Plain [("where", VObj Plain [("expiresAt", new_Date 42)])])) =
  Ok (mkParams (Some "Session") "findFirst"
        (VObj Plain
           (set_key "where" (VObj Plain [("deletedAt", VNull)])
              [("where", VObj Plain [("expiresAt", new_Date 42)])]))).
Proof.
  apply (proj2 (findUnique_drops_empty_objects (Some "Session") Plain Plain
                  [("where", VObj Plain [("expiresAt", new_Date 42)])]
                  [("expiresAt", new_Date 42)] eq_refl
                  ltac:(intros kv [<- | []]; now exists (DateObj 42)))).
Defined.

(** ** More on the relation-inclusion interceptor *)

Lemma entry_rewrite_unusable (e : value) :
  where_usable e = false -> entry_rewrite e = TypeError.
Proof.
  destruct e as [| |[|]|n|s|ce es]; simpl; try discriminate.
  unfold has_key. destruct (lookup "where" es) as [w|]; [|discriminate].
  destruct w; simpl; try discriminate; reflexivity.
Qed.

Lemma loop_throws (ks : list string) (es : props) (k : string) :
  In k ks ->
  has_key k es = true ->
  Part000.in_skipList k = false ->
  entry_rewrite (elt k es) = TypeError ->
  for_of entry_step ks es = TypeError.
Proof.
  revert es. induction ks as [|k0 ks IH]; intros es Hin Hk Hs Hr;
    [destruct Hin|].
  simpl. destruct (string_dec k0 k) as [-> | Hne].
  - unfold entry_step. now rewrite Hk, Hs, Hr.
  - destruct Hin as [Heq | Hin]; [congruence|].
    destruct (entry_step es k0) as [es1|] eqn:Hstep; [|reflexivity].
    simpl.
    assert (Hl : lookup k es1 = lookup k es)
      by (eapply step_frame; [eassumption | congruence]).
    apply IH; try assumption.
    + unfold has_key in *. now rewrite Hl.
    + unfold elt in *. now rewrite Hl.
Qed.

(** Every key outside the skip list holds a usable element. *)
Definition usable_outside_skipList (es : props) : Prop :=
  forall k, In k (keys es) -> Part000.in_skipList k = false ->
            where_usable (elt k es) = true.

Lemma entry_step_keeps_usable (es : props) (k0 : string) :
  usable_outside_skipList es ->
  exists es', entry_step es k0 = Ok es' /\ usable_outside_skipList es'.
Proof.
  intros Hu. unfold entry_step.
  destruct (has_key k0 es) eqn:Hk; [|now exists es].
  destruct (Part000.in_skipList k0) eqn:Hs; [now exists es|].
  destruct (entry_rewrite_returns (elt k0 es))
    as (r & Hr & Hr'); [apply Hu; [now apply has_key_keys | exact Hs]|].
  rewrite Hr. simpl. destruct r as [e'|]; [|now exists es].
  eexists. split; [reflexivity|].
  intros k Hin Hsk. rewrite (keys_set_key_present _ _ _ Hk) in Hin.
  destruct (string_dec k k0) as [-> | Hne].
  - rewrite elt_set_key_same. now apply Hr'.
  - rewrite elt_set_key_other by exact Hne. now apply Hu.
Qed.

Lemma entry_loop_keeps_usable (ks : list string) (es : props) :
  usable_outside_skipList es -> exists es', for_of entry_step ks es = Ok es'.
Proof.
  revert es. induction ks as [|k ks IH]; intros es Hu; simpl.
  - now exists es.
  - destruct (entry_step_keeps_usable es k Hu) as (es1 & -> & Hu1). simpl.
    now apply IH.
Qed.

(** X9.  The relation-inclusion interceptor on an argument object returns
    exactly when every key of the [include] object that is outside the skip
    list holds a usable element, that is, anything but an object whose own
    [where] is [null] or [undefined] (such as [{where: undefined}]); when
    [include] is absent or is not an object, it forwards the descriptor
    unchanged. *)
Theorem include_stage_returns_iff (p : params) (c : objclass) (ps : props) :
  args p = VObj c ps ->
  (forall ci es,
     lookup "include" ps = Some (VObj ci es) ->
     ((exists p', Part000.include_stage p = Ok p') <->
      (forall k, In k (keys es) -> Part000.in_skipList k = false ->
                 where_usable (elt k es) = true)))
  /\
  ((forall ci es, lookup "include" ps <> Some (VObj ci es)) ->
   Part000.include_stage p = Ok p).
Proof.
  intros Ha. split.
  - intros ci es Hinc. split.
    + intros [p' H] k Hin Hs.
      destruct (where_usable (elt k es)) eqn:Hu; [reflexivity|].
      destruct (include_stage_object _ _ _ _ _ _ Ha Hinc H) as (es' & Hl & _).
      rewrite (loop_throws (keys es) es k) in Hl; try assumption.
      * discriminate.
      * now apply has_key_keys.
      * now apply entry_rewrite_unusable.
    + intros Hu. unfold Part000.include_stage. rewrite Ha. simpl.
      rewrite Hinc. simpl. rewrite include_loop_step.
      destruct (entry_loop_keeps_usable (keys es) es Hu) as (es' & ->).
      simpl. eexists; reflexivity.
  - intros Hno. unfold Part000.include_stage. rewrite Ha. simpl.
    destruct (lookup "include" ps) as [inc|] eqn:Hinc; [|reflexivity].
    destruct (truthy inc); [|reflexivity].
    rewrite include_loop_primitive.
    + simpl. rewrite (set_key_lookup_id _ _ _ Hinc).
      rewrite <- Ha. now rewrite with_args_same.
    + intros ci es ->. now apply (Hno ci es).
Qed.

Lemma include_stage_returns_iff_witness :
  ~ exists p',
      Part000.include_stage
        (mkParams (Some "User") "findMany"
           (VObj Plain
              [("include",
                VObj Plain
                  [("posts", VObj Plain [("where", VUndefined)])])]))
      = Ok p'.
Proof.
  intros H.
  pose proof (proj1 (proj1 (include_stage_returns_iff
                              (mkParams (Some "User") "findMany"
                                 (VObj Plain
                                    [("include",
                                      VObj Plain
                                        [("posts",
                                          VObj Plain
                                            [("where", VUndefined)])])]))
                              Plain _ eq_refl)
                       Plain _ eq_refl) H "posts"
                (or_introl eq_refl) eq_refl) as Hu.
  discriminate Hu.
Defined.

Lemma entry_rewrite_object_fields (ce : objclass) (fs : props) (e' : value) :
  entry_rewrite (VObj ce fs) = Ok (Some e') ->
  exists fs', e' = VObj Plain fs' /\
              forall f, f <> "where" -> lookup f fs' = lookup f fs.
Proof.
  simpl. destruct (has_key "where" fs).
  - fold (elt "where" fs).
    destruct (has_own_property (elt "where" fs) "isDeleted") as [[|]|];
      simpl; try discriminate.
    intros [= <-]. eexists. split; [reflexivity|].
    intros f Hf. now apply lookup_set_key_other.
  - intros [= <-]. eexists. split; [reflexivity|].
    intros f Hf. now apply lookup_set_key_other.
Qed.

(** X10.  Whenever the relation-inclusion interceptor returns, an included
    object (under any key of the [include] object) is still an object, and
    every field of it other than [where] is as the caller gave it.  In
    particular the interceptor does not descend into a nested [include]:
    relations included two levels down get no tombstone filter. *)
Theorem include_keeps_fields_of_entries
    (p p' : params) (c ci : objclass) (ps es : props)
    (k : string) (ce : objclass) (fs : props) :
  args p = VObj c ps ->
  lookup "include" ps = Some (VObj ci es) ->
  lookup k es = Some (VObj ce fs) ->
  Part000.include_stage p = Ok p' ->
  exists es' ce' fs',
    get_prop (args p') "include" = Ok (VObj ci es') /\
    lookup k es' = Some (VObj ce' fs') /\
    (forall f, f <> "where" -> lookup f fs' = lookup f fs) /\
    lookup "include" fs' = lookup "include" fs.
Proof.
  intros Ha Hinc Hk H.
  assert (Hhas : has_key k es = true) by (unfold has_key; now rewrite Hk).
  destruct (Part000.in_skipList k) eqn:Hs.
  - destruct (include_stage_keeps_settled _ _ _ _ _ _ k Ha Hinc
                (or_intror (or_introl Hs)) H) as (es' & Hg & Hl).
    exists es', ce, fs. rewrite Hl. now repeat split.
  - destruct (entry_rewrite (VObj ce fs)) as [r|] eqn:Hr.
    + destruct (include_stage_entry _ _ _ _ _ _ k _ r Ha Hinc Hk Hs Hr H)
        as (es' & Hg & Hl).
      destruct r as [e'|].
      * destruct (entry_rewrite_object_fields _ _ _ Hr) as (fs' & -> & Hf).
        exists es', Plain, fs'. repeat split; try assumption.
        now apply Hf.
      * exists es', ce, fs. now repeat split.
    + destruct (include_stage_object _ _ _ _ _ _ Ha Hinc H) as (es' & Hl & _).
      rewrite (loop_throws (keys es) es k) in Hl; try assumption.
      * discriminate.
      * now apply has_key_keys.
      * unfold elt. now rewrite Hk.
Qed.

Lemma include_keeps_fields_of_entries_witness :
  exists es' ce' fs',
    get_prop
      (VObj Plain
         [("include",
           VObj Plain
             [("posts",
               VObj Plain
                 [("include", VObj Plain [("comments", VBool true)]);
                  ("where", VObj Plain [("isDeleted", VBool false)])])])])
      "include" = Ok (VObj Plain es') /\
    lookup "posts" es' = Some (VObj ce' fs') /\
    (forall f, f <> "where" ->
       lookup f fs' =
       lookup f [("include", VObj Plain [("comments", VBool true)])]) /\
    lookup "include" fs' =
      lookup "include" [("include", VObj Plain [("comments", VBool true)])].
Proof.
  apply (include_keeps_fields_of_entries
           (mkParams (Some "User") "findMany"
              (VObj Plain
                 [("include",
                   VObj Plain
                     [("posts",
                       VObj Plain
                         [("include",
                           VObj Plain [("comments", VBool true)])])])]))
           (mkParams (Some "User") "findMany"
              (VObj Plain
                 [("include",
                   VObj Plain
                     [("posts",
                       VObj Plain
                         [("include", VObj Plain [("comments", VBool true)]);
                          ("where",
                           VObj Plain [("isDeleted", VBool false)])])])]))
           Plain Plain _ _ "posts" Plain _ eq_refl eq_refl eq_refl eq_refl).
Defined.

(** X11.  Let [k] be a key of the [include] object outside the skip list
    whose element is an object with an own [where] object that lacks the
    tombstone field.  Whenever the relation-inclusion interceptor returns,
    the element under [k] has a [where] in which [isDeleted] is [false] and
    every other field is the caller's, and its fields other than [where]
    are the caller's. *)
Theorem include_merges_into_where
    (p p' : params) (c ci : objclass) (ps es : props)
    (k : string) (ce cw : objclass) (fs ws : props) :
  args p = VObj c ps ->
  lookup "include" ps = Some (VObj ci es) ->
  Part000.in_skipList k = false ->
  lookup k es = Some (VObj ce fs) ->
  lookup "where" fs = Some (VObj cw ws) ->
  lookup "isDeleted" ws = None ->
  Part000.include_stage p = Ok p' ->
  exists es' fs' ws',
    get_prop (args p') "include" = Ok (VObj ci es') /\
    lookup k es' = Some (VObj Plain fs') /\
    lookup "where" fs' = Some (VObj Plain ws') /\
    lookup "isDeleted" ws' = Some (VBool false) /\
    (forall f, f <> "isDeleted" -> lookup f ws' = lookup f ws) /\
    (forall f, f <> "where" -> lookup f fs' = lookup f fs).
Proof.
  intros Ha Hinc Hs Hk Hw Hd H.
  assert (Hr : entry_rewrite (VObj ce fs) =
               Ok (Some (VObj Plain
                           (set_key "where"
                              (VObj Plain
                                 (set_key "isDeleted" (VBool false) ws))
                              fs)))).
  { simpl. unfold has_key. rewrite Hw. simpl. unfold has_key.
    now rewrite Hd. }
  destruct (include_stage_entry _ _ _ _ _ _ k _ _ Ha Hinc Hk Hs Hr H)
    as (es' & Hg & Hl).
  exists es'. eexists. eexists. split; [exact Hg|]. split; [exact Hl|].
  split; [apply lookup_set_key_same|].
  split; [apply lookup_set_key_same|].
  split; intros f Hf; now apply lookup_set_key_other.
Qed.

Lemma include_merges_into_where_witness :
  exists es' fs' ws',
    get_prop
      (VObj Plain
         [("include",
           VObj Plain
             [("posts",
               VObj Plain
                 [("where", VObj Plain [("published", VBool true);
                                        ("isDeleted", VBool false)])])])])
      "include" = Ok (VObj Plain es') /\
    lookup "posts" es' = Some (VObj Plain fs') /\
    lookup "where" fs' = Some (VObj Plain ws') /\
    lookup "isDeleted" ws' = Some (VBool false) /\
    (forall f, f <> "isDeleted" ->
               lookup f ws' = lookup f [("published", VBool true)]) /\
    (forall f, f <> "where" ->
       lookup f fs' =
       lookup f [("where", VObj Plain [("published", VBool true)])]).
Proof.
  apply (include_merges_into_where
           (mkParams (Some "User") "findMany"
              (VObj Plain
                 [("include",
                   VObj Plain
                     [("posts",
                       VObj Plain
                         [("where",
                           VObj Plain [("published", VBool true)])])])]))
           (mkParams (Some "User") "findMany"
              (VObj Plain
                 [("include",
                   VObj Plain
                     [("posts",
                       VObj Plain
                         [("where",
                           VObj Plain [("published", VBool true);
                                       ("isDeleted", VBool false)])])])]))
           Plain Plain _ _ "posts" Plain Plain _ _
           eq_refl eq_refl eq_refl eq_refl eq_refl eq_refl eq_refl).
Defined.

(** ** More on soft deletes *)

(** X12.  A [deleteMany] without an existing [data] object.  When the
    arguments are absent (or falsy) the deletion interceptor forwards an
    [updateMany] whose arguments are [data] alone, holding the tombstone
    fields; on an argument object whose [data] is absent, [undefined] or
    [null] it stores the tombstone fields under [data]; when [data] is a
    boolean, number or string it throws.  Both variants. *)
Theorem deleteMany_without_data_object (now : Z) (m : option string) :
  (forall args0,
     truthy args0 = false ->
     (Part000.model_skipped m = false ->
      Part000.delete_stage now (mkParams m "deleteMany" args0) =
      Ok (mkParams m "updateMany"
            (VObj Plain [("data", VObj Plain (Part000.tombstone now))])))
     /\
     Middleware.delete_stage now (mkParams m "deleteMany" args0) =
     Ok (mkParams m "updateMany"
           (VObj Plain [("data", VObj Plain [("deletedAt", new_Date now)])])))
  /\
  (forall c ps,
     is_nullish (elt "data" ps) = true ->
     (Part000.model_skipped m = false ->
      Part000.delete_stage now (mkParams m "deleteMany" (VObj c ps)) =
      Ok (mkParams m "updateMany"
            (VObj c (set_key "data" (VObj Plain (Part000.tombstone now)) ps))))
     /\
     Middleware.delete_stage now (mkParams m "deleteMany" (VObj c ps)) =
     Ok (mkParams m "updateMany"
           (VObj c (set_key "data"
                      (VObj Plain [("deletedAt", new_Date now)]) ps))))
  /\
  (forall c ps d,
     lookup "data" ps = Some d -> is_primitive d = true ->
     (Part000.model_skipped m = false ->
      Part000.delete_stage now (mkParams m "deleteMany" (VObj c ps))
      = TypeError)
     /\
     Middleware.delete_stage now (mkParams m "deleteMany" (VObj c ps))
     = TypeError).
Proof.
  split; [|split].
  - intros args0 Hf. split.
    + intros Hm. unfold Part000.delete_stage. simpl. rewrite Hm.
      unfold Part000.deleteMany_block, ensure_args. simpl. now rewrite Hf.
    + unfold Middleware.delete_stage. simpl.
      unfold Middleware.deleteMany_block, ensure_args. simpl. now rewrite Hf.
  - intros c ps Hn. split.
    + intros Hm. unfold Part000.delete_stage. simpl. rewrite Hm.
      unfold Part000.deleteMany_block. simpl. fold (elt "data" ps).
      now rewrite Hn.
    + unfold Middleware.delete_stage. simpl.
      unfold Middleware.deleteMany_block. simpl. fold (elt "data" ps).
      now rewrite Hn.
  - intros c ps d Hd Hp. split.
    + intros Hm. unfold Part000.delete_stage. simpl. rewrite Hm.
      unfold Part000.deleteMany_block. simpl. rewrite Hd.
      destruct d; try discriminate; reflexivity.
    + unfold Middleware.delete_stage. simpl.
      unfold Middleware.deleteMany_block. simpl. rewrite Hd.
      destruct d; try discriminate; reflexivity.
Qed.

Lemma deleteMany_without_data_object_witness :
  Part000.delete_stage 5
    (mkParams (Some "Order") "deleteMany"
       (VObj Plain [("where", VObj Plain [("status", VStr "X")])])) =
  Ok (mkParams (Some "Order") "updateMany"
        (VObj Plain
           (set_key "data" (VObj Plain (Part000.tombstone 5))
              [("where", VObj Plain [("status", VStr "X")])]))).
Proof.
  apply (proj1 (proj1 (proj2 (deleteMany_without_data_object 5
                                (Some "Order")))
                  Plain [("where", VObj Plain [("status", VStr "X")])]
                  eq_refl)).
  reflexivity.
Defined.

(** X13.  In the chain of [src/middleware.ts] the stamping interceptor
    runs before the deletion interceptor, so a soft delete is not stamped: a
    [delete] on an argument object reaches the engine as an [update] whose
    [data] is [deletedAt] alone, whatever the clock of the stamping
    interceptor, and a [deleteMany] whose [data] is an object reaches it
    with [deletedAt] set and [updatedAt] as the caller left it. *)
Theorem middleware_soft_delete_not_stamped
    (t_upd t_del : Z) (m : option string) (c : objclass) (ps : props) :
  Middleware.applyMiddleware t_upd t_del (mkParams m "delete" (VObj c ps)) =
  Ok (mkParams m "update"
        (VObj c (set_key "data"
                   (VObj Plain [("deletedAt", new_Date t_del)]) ps)))
  /\
  (forall cd ds,
     lookup "data" ps = Some (VObj cd ds) ->
     exists ds',
       Middleware.applyMiddleware t_upd t_del
         (mkParams m "deleteMany" (VObj c ps)) =
       Ok (mkParams m "updateMany"
             (VObj c (set_key "data" (VObj cd ds') ps))) /\
       lookup "deletedAt" ds' = Some (new_Date t_del) /\
       lookup "updatedAt" ds' = lookup "updatedAt" ds).
Proof.
  split.
  - reflexivity.
  - intros cd ds Hd. eexists. split; [|split].
    + unfold Middleware.applyMiddleware. simpl.
      apply (middleware_deleteMany_merge t_del m c ps cd ds Hd).
    + apply lookup_set_key_same.
    + now apply lookup_set_key_other.
Qed.

Lemma middleware_soft_delete_not_stamped_witness :
  exists ds',
    Middleware.applyMiddleware 1 2
      (mkParams (Some "Post") "deleteMany"
         (VObj Plain [("data", VObj Plain [("updatedAt", new_Date 0)])])) =
    Ok (mkParams (Some "Post") "updateMany"
          (VObj Plain
             (set_key "data" (VObj Plain ds')
                [("data", VObj Plain [("updatedAt", new_Date 0)])]))) /\
    lookup "deletedAt" ds' = Some (new_Date 2) /\
    lookup "updatedAt" ds' = lookup "updatedAt" [("updatedAt", new_Date 0)].
Proof.
  apply (proj2 (middleware_soft_delete_not_stamped 1 2 (Some "Post") Plain
                  [("data", VObj Plain [("updatedAt", new_Date 0)])])
           Plain [("updatedAt", new_Date 0)] eq_refl).
Defined.

(** [params.args.data[f]] *)
Definition data_field (f : string) (p : params) : result value :=
  data <- get_prop (args p) "data" ;;
  get_prop data f.

Lemma part000_delete_stage_tombstones (now : Z) (p r : params) :
  Part000.model_skipped (model p) = false ->
  action p = "delete" \/ action p = "deleteMany" ->
  Part000.delete_stage now p = Ok r ->
  data_field "isDeleted" r = Ok (VBool true) /\
  data_field "deletedAt" r = Ok (new_Date now).
Proof.
  intros Hm Ha H. unfold Part000.delete_stage in H. rewrite Hm in H.
  unfold data_field.
  destruct Ha as [Ha | Ha]; rewrite Ha in H; simpl in H;
    rewrite ?Ha in H; simpl in H.
  - unfold Part000.delete_block in H. simpl in H.
    destruct (args p) as [| |b|n|s|c ps]; simpl in H; try discriminate.
    injection H as <-. simpl. rewrite lookup_set_key_same. now split.
  - rewrite bind_Ok_r in H. unfold Part000.deleteMany_block in H.
    simpl in H.
    destruct (get_prop (args (ensure_args p)) "data") as [d|]; simpl in H;
      [|discriminate].
    destruct (negb (is_nullish d)).
    + destruct d as [| |b|n|s|cd ds]; simpl in H; try discriminate.
      destruct (args (ensure_args p)) as [| |b|n|s|c ps]; simpl in H;
        try discriminate.
      injection H as <-. simpl. rewrite lookup_set_key_same. simpl.
      rewrite lookup_set_key_same.
      rewrite lookup_set_key_other by discriminate.
      now rewrite lookup_set_key_same.
    + destruct (args (ensure_args p)) as [| |b|n|s|c ps]; simpl in H;
        try discriminate.
      injection H as <-. simpl. rewrite lookup_set_key_same. now split.
Qed.

Lemma middleware_delete_stage_tombstones (now : Z) (p r : params) :
  action p = "delete" \/ action p = "deleteMany" ->
  Middleware.delete_stage now p = Ok r ->
  data_field "deletedAt" r = Ok (new_Date now).
Proof.
  intros Ha H. unfold Middleware.delete_stage in H. unfold data_field.
  destruct Ha as [Ha | Ha]; rewrite Ha in H; simpl in H;
    rewrite ?Ha in H; simpl in H.
  - unfold Middleware.delete_block in H. simpl in H.
    destruct (args p) as [| |b|n|s|c ps]; simpl in H; try discriminate.
    injection H as <-. simpl. now rewrite lookup_set_key_same.
  - rewrite bind_Ok_r in H. unfold Middleware.deleteMany_block in H.
    simpl in H.
    destruct (get_prop (args (ensure_args p)) "data") as [d|]; simpl in H;
      [|discriminate].
    destruct (negb (is_nullish d)).
    + destruct d as [| |b|n|s|cd ds]; simpl in H; try discriminate.
      destruct (args (ensure_args p)) as [| |b|n|s|c ps]; simpl in H;
        try discriminate.
      injection H as <-. simpl. rewrite lookup_set_key_same. simpl.
      now rewrite lookup_set_key_same.
    + destruct (args (ensure_args p)) as [| |b|n|s|c ps]; simpl in H;
        try discriminate.
      injection H as <-. simpl. now rewrite lookup_set_key_same.
Qed.

(** X14.  Whatever the arguments were, when the chain forwards a [delete]
    or [deleteMany] (of a model outside the skip list, in [part_000]), what
    reaches the engine is an [update] or [updateMany] whose [data] carries
    the tombstone: [deletedAt] is the time of the deletion interceptor, and
    in [part_000] [isDeleted] is [true]. *)
Theorem soft_delete_carries_tombstone (p p' : params) :
  action p = "delete" \/ action p = "deleteMany" ->
  (forall now,
     Part000.model_skipped (model p) = false ->
     Part000.applyMiddleware now p = Ok p' ->
     action p' = delete_action (action p) /\
     data_field "isDeleted" p' = Ok (VBool true) /\
     data_field "deletedAt" p' = Ok (new_Date now))
  /\
  (forall t_upd t_del,
     Middleware.applyMiddleware t_upd t_del p = Ok p' ->
     action p' = delete_action (action p) /\
     data_field "deletedAt" p' = Ok (new_Date t_del)).
Proof.
  intros Ha.
  assert (Hnl : action p <> "findUnique" /\ action p <> "findMany" /\
                action p <> "update" /\ action p <> "updateMany").
  { destruct Ha as [-> | ->]; repeat split; discriminate. }
  destruct Hnl as (N1 & N2 & N3 & N4).
  assert (Hla : lookup_action (action p) = action p).
  { unfold lookup_action. apply String.eqb_neq in N1. now rewrite N1. }
  split.
  - intros now Hm H.
    destruct (part000_chain_action _ _ _ H) as [_ Hact].
    rewrite Hm, Hla in Hact. split; [exact Hact|].
    unfold Part000.applyMiddleware in H.
    rewrite part000_lookup_stage_other in H by assumption. simpl in H.
    destruct (Part000.delete_stage now p) as [r|] eqn:Hr; simpl in H;
      [|discriminate].
    destruct (part000_delete_stage_tombstones _ _ _ Hm Ha Hr) as [T1 T2].
    destruct (include_stage_frame _ _ H) as (_ & _ & Hf).
    unfold data_field in *. now rewrite Hf by discriminate.
  - intros t_upd t_del H.
    destruct (middleware_chain_action _ _ _ _ H) as [_ Hact].
    rewrite Hla in Hact. split; [exact Hact|].
    unfold Middleware.applyMiddleware in H.
    rewrite middleware_lookup_stage_other in H by assumption. simpl in H.
    rewrite middleware_update_stage_other in H by assumption. simpl in H.
    eapply middleware_delete_stage_tombstones; eassumption.
Qed.

Lemma soft_delete_carries_tombstone_witness :
  action (mkParams (Some "Order") "updateMany"
            (VObj Plain [("data", VObj Plain (Part000.tombstone 6))])) =
    delete_action "deleteMany" /\
  data_field "isDeleted"
    (mkParams (Some "Order") "updateMany"
       (VObj Plain [("data", VObj Plain (Part000.tombstone 6))])) =
    Ok (VBool true) /\
  data_field "deletedAt"
    (mkParams (Some "Order") "updateMany"
       (VObj Plain [("data", VObj Plain (Part000.tombstone 6))])) =
    Ok (new_Date 6).
Proof.
  apply (proj1 (soft_delete_carries_tombstone
                  (mkParams (Some "Order") "deleteMany" VUndefined)
                  (mkParams (Some "Order") "updateMany"
                     (VObj Plain
                        [("data", VObj Plain (Part000.tombstone 6))]))
                  (or_intror eq_refl)) 6%Z eq_refl).
  reflexivity.
Defined.

(** ** Reads that reach the engine *)

(** X15.  Whatever the arguments were, when the chain forwards a
    [findUnique] or [findMany] (of a model outside the skip list, in
    [part_000]), the [where] that reaches the engine has the tombstone field
    set: for a [findUnique] it is the not-tombstoned value ([false], resp.
    [null]) and the action is [findFirst]; for a [findMany] it is either
    that or the value the caller had set, never [undefined]. *)
Theorem reads_carry_tombstone_filter (p p' : params) :
  (action p = "findUnique" ->
   (forall now,
      Part000.model_skipped (model p) = false ->
      Part000.applyMiddleware now p = Ok p' ->
      action p' = "findFirst" /\
      where_field "isDeleted" p' = Ok (VBool false))
   /\
   (forall t_upd t_del,
      Middleware.applyMiddleware t_upd t_del p = Ok p' ->
      action p' = "findFirst" /\ where_field "deletedAt" p' = Ok VNull))
  /\
  (action p = "findMany" ->
   (forall now,
      Part000.model_skipped (model p) = false ->
      Part000.applyMiddleware now p = Ok p' ->
      action p' = "findMany" /\
      exists d, where_field "isDeleted" p' = Ok d /\ d <> VUndefined)
   /\
   (forall t_upd t_del,
      Middleware.applyMiddleware t_upd t_del p = Ok p' ->
      action p' = "findMany" /\
      exists d, where_field "deletedAt" p' = Ok d /\ d <> VUndefined)).
Proof.
  split.
  - intros Ha. split.
    + intros now Hm H.
      destruct (part000_chain_stages _ _ _ H) as (q & r & Hq & Hr & Hi).
      destruct (part000_findUnique_sets_clause _ _ Ha Hm Hq) as [Haq Hwq].
      rewrite part000_delete_stage_other in Hr by (rewrite Haq; discriminate).
      injection Hr as <-.
      destruct (include_stage_frame _ _ Hi) as (_ & Hact & Hf).
      split; [congruence|].
      unfold where_field in *. now rewrite Hf by discriminate.
    + intros t_upd t_del H.
      destruct (middleware_chain_stages _ _ _ _ H) as (q & r & Hq & Hr & Hd).
      destruct (middleware_findUnique_sets_clause _ _ Ha Hq) as [Haq Hwq].
      rewrite middleware_update_stage_other in Hr
        by (rewrite Haq; discriminate).
      injection Hr as <-.
      rewrite middleware_delete_stage_other in Hd
        by (rewrite Haq; discriminate).
      injection Hd as <-. now split.
  - intros Ha. split.
    + intros now Hm H.
      destruct (part000_chain_action _ _ _ H) as [_ Hact].
      rewrite Hm, Ha in Hact. split; [exact Hact|].
      destruct (part000_chain_idempotent now now p p' Ha H) as [_ Hf].
      destruct (Hf Hm) as (_ & w & d & Hw & _ & Hd & Hud).
      exists d. unfold where_field. rewrite Hw. simpl.
      split; [exact Hd|]. intros ->. discriminate.
    + intros t_upd t_del H.
      destruct (middleware_chain_action _ _ _ _ H) as [_ Hact].
      rewrite Ha in Hact. split; [exact Hact|].
      rewrite middleware_chain_findMany in H by exact Ha.
      destruct (middleware_findMany_block_idempotent _ _ H)
        as (_ & _ & d & Hd & Hud).
      exists d. split; [exact Hd|]. intros ->. discriminate.
Qed.

Lemma reads_carry_tombstone_filter_witness :
  action (mkParams (Some "Order") "findFirst"
            (VObj Plain [("where", VObj Plain [("id", VStr "A");
                                               ("isDeleted", VBool false)])]))
    = "findFirst" /\
  where_field "isDeleted"
    (mkParams (Some "Order") "findFirst"
       (VObj Plain [("where", VObj Plain [("id", VStr "A");
                                          ("isDeleted", VBool false)])]))
    = Ok (VBool false).
Proof.
  apply (proj1 (proj1 (reads_carry_tombstone_filter
                         (mkParams (Some "Order") "findUnique"
                            (VObj Plain
                               [("where", VObj Plain [("id", VStr "A")])]))
                         (mkParams (Some "Order") "findFirst"
                            (VObj Plain
                               [("where",
                                 VObj Plain [("id", VStr "A");
                                             ("isDeleted", VBool false)])])))
                  eq_refl) 0%Z eq_refl).
  reflexivity.
Defined.

(** ** Relations on the skip list *)

Lemma include_stage_returns_when_usable
    (p : params) (c ci : objclass) (ps es : props) :
  args p = VObj c ps ->
  lookup "include" ps = Some (VObj ci es) ->
  usable_outside_skipList es ->
  exists p', Part000.include_stage p = Ok p'.
Proof.
  intros Ha Hinc Hu. unfold Part000.include_stage. rewrite Ha. simpl.
  rewrite Hinc. simpl. rewrite include_loop_step.
  destruct (entry_loop_keeps_usable (keys es) es Hu) as (es' & ->).
  simpl. eexists; reflexivity.
Qed.

(** X16.  Whenever the relation-inclusion interceptor returns, the element
    under a key of the [include] object that is on the skip list is the one
    the caller gave, whatever it is and whatever the other entries are; and
    such an element never makes the interceptor throw: with every other key
    usable, the interceptor returns even when the skip-listed entry is an
    object whose [where] is [null]. *)
Theorem include_skips_listed_relations
    (p : params) (c ci : objclass) (ps es : props) (k : string) :
  args p = VObj c ps ->
  lookup "include" ps = Some (VObj ci es) ->
  Part000.in_skipList k = true ->
  (forall p',
     Part000.include_stage p = Ok p' ->
     exists es',
       get_prop (args p') "include" = Ok (VObj ci es') /\
       lookup k es' = lookup k es)
  /\
  ((forall k', In k' (keys es) -> k' <> k ->
               Part000.in_skipList k' = true \/
               where_usable (elt k' es) = true) ->
   exists p', Part000.include_stage p = Ok p').
Proof.
  intros Ha Hinc Hs. split.
  - intros p' H.
    apply (include_stage_keeps_settled _ _ _ _ _ _ k Ha Hinc); [|exact H].
    right. now left.
  - intros Hu.
    apply (include_stage_returns_when_usable p c ci ps es Ha Hinc).
    intros k' Hin Hs'. destruct (string_dec k' k) as [-> | Hne];
      [congruence|].
    destruct (Hu k' Hin Hne) as [H1 | H1]; [congruence | exact H1].
Qed.

Lemma include_skips_listed_relations_witness :
  exists p',
    Part000.include_stage
      (mkParams (Some "User") "findMany"
         (VObj Plain
            [("include",
              VObj Plain
                [("organization", VObj Plain [("where", VNull)]);
                 ("posts", VBool true)])]))
    = Ok p'.
Proof.
  apply (proj2 (include_skips_listed_relations
                  (mkParams (Some "User") "findMany"
                     (VObj Plain
                        [("include",
                          VObj Plain
                            [("organization", VObj Plain [("where", VNull)]);
                             ("posts", VBool true)])]))
                  Plain Plain _ _ "organization" eq_refl eq_refl eq_refl)).
  intros k' [<- | [<- | []]] Hne.
  - now destruct Hne.
  - right. reflexivity.
Defined.
